(** * Indico editing workflow: [Editable] state derivation, review
    conditions and permission predicates.

    A shallow embedding of
    [indico/modules/events/editing/models/editable.py], of the handlers of
    [indico/modules/events/editing/controllers/backend/management.py] that
    query editables and editor principals, of the previewer dispatch of
    [indico/modules/attachments/preview.py] and of
    [get_theme_global_settings] of [indico/modules/events/layout].
    Python objects are
    records, properties and methods are functions whose first argument is
    [self], SQL queries are list programs over the rows they select, an
    absent value ([None], SQL [NULL]) is [None], and a Python exception is
    the [Raise] branch of [result]. *)

From Stdlib Require Import ZArith List Bool Sorted.
From stdpp Require Import base decidable option list gmap strings.
From Equations Require Import Equations.

Local Open Scope string_scope.
Local Open Scope Z_scope.

(** ** Python results *)

Inductive exn : Type :=
| AttributeError.

Inductive result (A : Type) : Type :=
| Ok (value : A)
| Raise (e : exn).
Arguments Ok {A} value.
Arguments Raise {A} e.

(** ** SQL helpers *)

(** [query.order_by(key.desc()).first()] and [ORDER BY key DESC LIMIT 1]:
    a row whose key is greatest, [None] when no row is selected.  SQL leaves
    the choice among rows of equal key open; the scan below keeps the one met
    last.  Statements that relate the result to a list position assume
    distinct keys. *)
Fixpoint first_order_by_desc {A : Type} (key : A -> Z) (rows : list A) : option A :=
  match rows with
  | [] => None
  | r :: rows' =>
      match first_order_by_desc key rows' with
      | None => Some r
      | Some m => if key m <? key r then Some r else Some m
      end
  end.

(** [db.case({when: then, ...}, value=v)]: the [then] of the first [when]
    equal to [v]; there is no [else_], so the result is [NULL] otherwise. *)
Definition db_case {K V : Type} `{EqDecision K} (whens : list (K * V)) (value : K) : option V :=
  snd <$> List.find (fun w => bool_decide (fst w = value)) whens.

(** ** Enumerations *)

Module EditableType.
Inductive t : Type := paper | slides | poster.

#[global] Instance eq_dec : EqDecision t.
Proof. solve_decision. Defined.

(** The integer value of the member ([paper = 1], ...). *)
Definition value (self : t) : nat :=
  match self with paper => 1 | slides => 2 | poster => 3 end.

Definition __editor_permissions__ : list (option string) :=
  [None; Some "paper_editing"; Some "slides_editing"; Some "poster_editing"].

(** [self.__editor_permissions__[self]]; every member indexes inside the
    table. *)
Definition editor_permission (self : t) : option string :=
  default None (__editor_permissions__ !! value self).
End EditableType.

Module EditableState.
Inductive t : Type :=
| new
| ready_for_review
| needs_submitter_confirmation
| needs_submitter_changes
| accepted
| rejected
| accepted_submitter.

#[global] Instance eq_dec : EqDecision t.
Proof. solve_decision. Defined.

Definition value (self : t) : nat :=
  match self with
  | new => 1
  | ready_for_review => 2
  | needs_submitter_confirmation => 3
  | needs_submitter_changes => 4
  | accepted => 5
  | rejected => 6
  | accepted_submitter => 7
  end.
End EditableState.

Module RevisionType.
(** Modelled from the spec: the members of [RevisionType], declared in
    [models/revisions.py]; the ten variants are the ones named in the data
    model and used as keys of the state table. *)
Inductive t : Type :=
| new
| ready_for_review
| needs_submitter_confirmation
| changes_acceptance
| changes_rejection
| needs_submitter_changes
| acceptance
| rejection
| replacement
| reset.

#[global] Instance eq_dec : EqDecision t.
Proof. solve_decision. Defined.
End RevisionType.

(** ** Collaborators *)

(** Modelled from the spec: a user, known by its id; an anonymous request
    has no user ([None]). *)
Record User : Type := mkUser { user_id : Z }.

#[global] Instance User_eq_dec : EqDecision User.
Proof. solve_decision. Defined.

Module EditingRevisionFile.
(** Modelled from the spec: a file attached to a revision; each file
    carries a [file_type_id]. *)
Record t : Type := mk { file_type_id : Z }.
End EditingRevisionFile.

Module EditingRevision.
(** Modelled from the spec: the columns of [EditingRevision] read by
    [Editable]: its [type], the [is_undone] flag, the creation timestamp
    and the attached files. *)
Record t : Type := mk {
  type : RevisionType.t;
  is_undone : bool;
  created_dt : Z;
  files : list EditingRevisionFile.t
}.
End EditingRevision.

Module EditingFileType.
(** Modelled from the spec: a file type, known by its id. *)
Record t : Type := mk { id : Z }.
End EditingFileType.

Module EditingReviewCondition.
(** Modelled from the spec: a review condition of an event, for one
    editable type, with its required file types. *)
Record t : Type := mk {
  type : EditableType.t;
  file_types : list EditingFileType.t
}.
End EditingReviewCondition.

Module Event.
(** Modelled from the spec: the event as [Editable] uses it, that is
    [can_manage(user, permission=None)] and the rows of
    [EditingReviewCondition] that belong to the event. *)
Record t : Type := mk {
  id : Z;
  can_manage : option User -> option string -> bool;
  editing_review_conditions : list EditingReviewCondition.t
}.
End Event.

Module Contribution.
(** Modelled from the spec: the contribution as [Editable] uses it, with its
    event and the two lookups [can_submit_proceedings(user)] and
    [is_user_associated(user, check_abstract)]. *)
Record t : Type := mk {
  id : Z;
  event : Event.t;
  can_submit_proceedings : option User -> bool;
  is_user_associated : option User -> bool -> bool
}.
End Contribution.

(** Modelled from the spec: [editable_type_settings[type]], a settings
    proxy read with [get(event, name)]; the settings read here are boolean
    flags. *)
Record SettingsProxy : Type := mkSettingsProxy {
  get : Event.t -> string -> bool
}.

(** ** The editable *)

Module Editable.
(** The columns and relationships of [Editable] that its properties and
    permission methods read; the foreign key ids and [published_revision]
    are read by none of them and are left out. *)
Record t : Type := mk {
  id : Z;
  contribution : Contribution.t;
  type : EditableType.t;
  editor : option User;
  is_deleted : bool;
  (** the [revisions] backref of [EditingRevision.editable] *)
  revisions : list EditingRevision.t
}.

Definition event (self : t) : Event.t :=
  Contribution.event (contribution self).

(** [[r for r in self.revisions if not r.is_undone]] *)
Definition valid_revisions (self : t) : list EditingRevision.t :=
  List.filter (fun r => negb (EditingRevision.is_undone r)) (revisions self).

(** [self.valid_revisions[-1] if self.valid_revisions else None] *)
Definition latest_revision (self : t) : option EditingRevision.t :=
  match valid_revisions self with
  | [] => None
  | _ :: _ => last (valid_revisions self)
  end.

(** [EditingRevision.query.filter_by(editable=self, is_undone=False)
      .join(EditingRevisionFile).order_by(created_dt.desc()).first()]:
    the inner join has one row per attached file, so a revision without
    files has none; [first()] is [None] when there is no row. *)
Definition latest_revision_with_files (self : t) : option EditingRevision.t :=
  let joined :=
    r ← List.filter (fun r => bool_decide (EditingRevision.is_undone r = false))
                    (revisions self);
    f ← EditingRevision.files r;
    [(r, f)] in
  fst <$> first_order_by_desc (fun row => EditingRevision.created_dt (fst row)) joined.

(** The [whens] of [Editable.state], in the order of the source. *)
Definition state_cases : list (RevisionType.t * EditableState.t) :=
  [ (RevisionType.new, EditableState.new);
    (RevisionType.ready_for_review, EditableState.ready_for_review);
    (RevisionType.needs_submitter_confirmation, EditableState.needs_submitter_confirmation);
    (RevisionType.changes_acceptance, EditableState.accepted_submitter);
    (RevisionType.changes_rejection, EditableState.needs_submitter_changes);
    (RevisionType.needs_submitter_changes, EditableState.needs_submitter_changes);
    (RevisionType.acceptance, EditableState.accepted);
    (RevisionType.rejection, EditableState.rejected);
    (RevisionType.replacement, EditableState.ready_for_review);
    (RevisionType.reset, EditableState.ready_for_review) ].

(** [Editable.state], the column property set up by [_mappers_configured]:
    a scalar subquery over the editable's revisions that are not undone,
    newest first, limited to one row; [NULL] when it selects nothing. *)
Definition state (self : t) : option EditableState.t :=
  r ← first_order_by_desc EditingRevision.created_dt
        (List.filter (fun r => negb (EditingRevision.is_undone r)) (revisions self));
  db_case state_cases (EditingRevision.type r).

(** [EditingReviewCondition.query.with_parent(self.event).filter_by(type=self.type)],
    then one set of file type ids per condition; [self.latest_revision_with_files]
    is dereferenced without a test, so an absent revision raises. *)
Definition review_conditions_valid (self : t) : result bool :=
  let query :=
    List.filter (fun cond => bool_decide (EditingReviewCondition.type cond = type self))
                (Event.editing_review_conditions (event self)) in
  let review_conditions : list (gset Z) :=
    map (fun cond => list_to_set (map EditingFileType.id (EditingReviewCondition.file_types cond)))
        query in
  match review_conditions with
  | [] => Ok true
  | _ :: _ =>
      match latest_revision_with_files self with
      | None => Raise AttributeError
      | Some rev =>
          let file_types : gset Z :=
            list_to_set (map EditingRevisionFile.file_type_id (EditingRevision.files rev)) in
          Ok (existsb (fun cond => bool_decide (cond ⊆ file_types)) review_conditions)
      end
  end.

(** The same editable with another revision log. *)
Definition with_revisions (self : t) (revs : list EditingRevision.t) : t :=
  mk (id self) (contribution self) (type self) (editor self) (is_deleted self) revs.

(** Modelled from the spec: the [revisions] relationship is declared in
    [models/revisions.py]; revisions are ordered by creation timestamp,
    oldest first.  Timestamps of one editable are taken to be distinct. *)
Definition chronological (revs : list EditingRevision.t) : Prop :=
  StronglySorted (fun a b => EditingRevision.created_dt a < EditingRevision.created_dt b) revs.

(** The state table as the specification words it (section 4.2), one line
    per revision type, to be compared with the [whens] of the source. *)
Definition state_table (ty : RevisionType.t) : EditableState.t :=
  match ty with
  | RevisionType.new => EditableState.new
  | RevisionType.ready_for_review => EditableState.ready_for_review
  | RevisionType.needs_submitter_confirmation => EditableState.needs_submitter_confirmation
  | RevisionType.changes_acceptance => EditableState.accepted_submitter
  | RevisionType.changes_rejection => EditableState.needs_submitter_changes
  | RevisionType.needs_submitter_changes => EditableState.needs_submitter_changes
  | RevisionType.acceptance => EditableState.accepted
  | RevisionType.rejection => EditableState.rejected
  | RevisionType.replacement => EditableState.ready_for_review
  | RevisionType.reset => EditableState.ready_for_review
  end.

(** The same editable with another assigned editor. *)
Definition with_editor (self : t) (user : option User) : t :=
  mk (id self) (contribution self) (type self) user (is_deleted self) (revisions self).

(** [Editable.revision_count], the second column property of
    [_mappers_configured]: [count(distinct EditingRevision.id)] over the
    editable's revisions that are not undone, joined with their files.  The
    primary key of a revision row is its position in the table. *)
Definition revision_count (self : t) : nat :=
  let joined :=
    row ← List.filter (fun row => negb (EditingRevision.is_undone (snd row)))
                      (imap pair (revisions self));
    f ← EditingRevision.files (snd row);
    [(row, f)] in
  size (list_to_set (C := gset nat) (map (fun joined_row => fst (fst joined_row)) joined)).

Section Permissions.

(** [indico.modules.events.editing.settings.editable_type_settings] *)
Variable editable_type_settings : EditableType.t -> SettingsProxy.

(** [self.editor == user] *)
Definition editor_is (self : t) (user : option User) : bool :=
  bool_decide (editor self = user).

Definition _has_general_editor_permissions (self : t) (user : option User) : bool :=
  Event.can_manage (event self) user (Some "editing_manager") ||
  Event.can_manage (event self) user (EditableType.editor_permission (type self)).

Definition can_see_timeline (self : t) (user : option User) : bool :=
  _has_general_editor_permissions self user ||
  Contribution.can_submit_proceedings (contribution self) user ||
  Contribution.is_user_associated (contribution self) user true.

Definition can_perform_submitter_actions (self : t) (user : option User) : bool :=
  if negb (can_see_timeline self user) then false
  else Contribution.can_submit_proceedings (contribution self) user.

Definition can_perform_editor_actions (self : t) (user : option User) : bool :=
  if negb (can_see_timeline self user) then false
  else if editor_is self user && Event.can_manage (event self) user (Some "editing_manager")
  then true
  else if negb (get (editable_type_settings (type self)) (event self) "editing_enabled")
  then false
  else if editor_is self user &&
          Event.can_manage (event self) user (EditableType.editor_permission (type self))
  then true
  else false.

Definition can_use_internal_comments (self : t) (user : option User) : bool :=
  _has_general_editor_permissions self user.

Definition can_see_restricted_revisions (self : t) (user : option User) : bool :=
  _has_general_editor_permissions self user.

(** [actor] defaults to [None]; the inner call passes the actor as the user
    and no actor of its own. *)
Equations can_see_editor_names (self : t) (user : option User) (actor : option User) : bool
  by wf (match actor with Some _ => 1%nat | None => 0%nat end) lt :=
  can_see_editor_names self user None :=
    negb (get (editable_type_settings (type self)) (event self) "anonymous_team") ||
    false ||
    _has_general_editor_permissions self user;
  can_see_editor_names self user (Some a) :=
    negb (get (editable_type_settings (type self)) (event self) "anonymous_team") ||
    negb (can_see_editor_names self (Some a) None) ||
    _has_general_editor_permissions self user.

Definition can_comment (self : t) (user : option User) : bool :=
  Event.can_manage (event self) user (EditableType.editor_permission (type self)) ||
  Event.can_manage (event self) user (Some "editing_manager") ||
  Contribution.is_user_associated (contribution self) user true.

Definition can_unassign (self : t) (user : option User) : bool :=
  let type_settings := editable_type_settings (type self) in
  Event.can_manage (event self) user (Some "editing_manager") ||
  (editor_is self user &&
   Event.can_manage (event self) user (EditableType.editor_permission (type self)) &&
   get type_settings (event self) "editing_enabled" &&
   get type_settings (event self) "self_assign_allowed").

Definition can_assign_self (self : t) (user : option User) : bool :=
  let type_settings := editable_type_settings (type self) in
  if bool_decide (is_Some (editor self)) &&
     (editor_is self user || negb (can_unassign self user))
  then false
  else
    (Event.can_manage (event self) user (EditableType.editor_permission (type self)) &&
     get type_settings (event self) "editing_enabled" &&
     get type_settings (event self) "self_assign_allowed") ||
    Event.can_manage (event self) user (Some "editing_manager").

Definition can_delete (self : t) (user : option User) : bool :=
  Event.can_manage (event self) user None.

Definition editing_enabled (self : t) : bool :=
  get (editable_type_settings (type self)) (event self) "editing_enabled".

End Permissions.
End Editable.

(** ** Sample data

    A small event used to run the definitions: Alice (1) is an editing
    manager, Bob (2) holds the paper editing permission, Carol (3) submits
    for the contribution. *)

Module Samples.
Definition alice : User := mkUser 1.
Definition bob : User := mkUser 2.
Definition carol : User := mkUser 3.

Definition sample_can_manage (user : option User) (permission : option string) : bool :=
  (bool_decide (user = Some alice) && bool_decide (permission = Some "editing_manager")) ||
  (bool_decide (user = Some bob) && bool_decide (permission = Some "paper_editing")).

(** One review condition per list of file type ids, all for papers. *)
Definition sample_event (conditions : list (list Z)) : Event.t :=
  Event.mk 10 sample_can_manage
    (map (fun ids => EditingReviewCondition.mk EditableType.paper (map EditingFileType.mk ids))
         conditions).

Definition sample_contribution (conditions : list (list Z)) : Contribution.t :=
  Contribution.mk 20 (sample_event conditions)
    (fun user => bool_decide (user = Some carol))
    (fun user _ => bool_decide (user = Some carol)).

Definition revision (ty : RevisionType.t) (undone : bool) (created : Z) (file_type_ids : list Z)
  : EditingRevision.t :=
  EditingRevision.mk ty undone created (map EditingRevisionFile.mk file_type_ids).

Definition sample_editable (conditions : list (list Z)) (editor : option User)
    (revs : list EditingRevision.t) : Editable.t :=
  Editable.mk 30 (sample_contribution conditions) EditableType.paper editor false revs.

(** Settings in which only the listed names are switched on. *)
Definition sample_settings (on : list string) : EditableType.t -> SettingsProxy :=
  fun _ => mkSettingsProxy (fun _ name => bool_decide (name ∈ on)).
End Samples.

(** ** Management handlers

    [controllers/backend/management.py]: the queries over contributions
    without an editable, and the update of the editors of a type. *)

Module Management.

Section NotSubmitted.

(** The person links of a contribution are kept abstract; the handlers
    read their [email], an empty address being false in a test. *)
Context {PersonLink : Type}.
Variable email : PersonLink -> string.

(** The rows of the [contributions] and [editables] tables. *)
Variable contributions : list Contribution.t.
Variable editables : list Editable.t.
(** [contrib.person_links] *)
Variable person_links : Contribution.t -> list PersonLink.
(** [self.get_roles_from_person_link], a method of the email mixin. *)
Variable get_roles_from_person_link : PersonLink -> gset string.

(** [Contribution.editables], the backref of [Editable.contribution]: its
    join condition is
    [(Editable.contribution_id == Contribution.id) & ~Editable.is_deleted]. *)
Definition Contribution_editables (contrib : Contribution.t) : list Editable.t :=
  List.filter
    (fun editable =>
       bool_decide (Contribution.id (Editable.contribution editable) = Contribution.id contrib) &&
       negb (Editable.is_deleted editable))
    editables.

(** [Contribution.query.with_parent(self.event)
      .filter(~Contribution.editables.any(Editable.type == self.editable_type))] *)
Definition contributions_without_editable (event : Event.t) (editable_type : EditableType.t)
  : list Contribution.t :=
  List.filter
    (fun contrib =>
       negb (existsb (fun editable => bool_decide (Editable.type editable = editable_type))
                     (Contribution_editables contrib)))
    (List.filter
       (fun contrib => bool_decide (Event.id (Contribution.event contrib) = Event.id event))
       contributions).

(** [RHEditablesNotSubmitted._process]: the [count] of the response. *)
Definition RHEditablesNotSubmitted_process (event : Event.t) (editable_type : EditableType.t)
  : nat :=
  length (contributions_without_editable event editable_type).

(** [RHEmailNotSubmittedEditablesSend.get_recipients]: the triples yielded,
    in order: the address, the contribution with the person link, and the
    contribution id of the log metadata. *)
Definition get_recipients (event : Event.t) (editable_type : EditableType.t)
    (roles : gset string) : list (string * (Contribution.t * PersonLink) * Z) :=
  contrib ← contributions_without_editable event editable_type;
  person_link ← person_links contrib;
  if negb (String.eqb (email person_link) "") &&
     bool_decide (get_roles_from_person_link person_link ∩ roles <> ∅)
  then [(email person_link, (contrib, person_link), Contribution.id contrib)]
  else [].

End NotSubmitted.

Section Principals.

(** The principals of the access control list and the list itself are kept
    abstract; the handler reads the list through the principals that hold a
    management permission explicitly and changes it through
    [update_principal]. *)
Context {Principal : Type} `{Countable Principal} {ACL : Type}.

(** [{p.principal for p in event.acl_entries
        if p.has_management_permission(permission_name, explicit=True)}] *)
Variable explicit_holders : ACL -> option string -> gset Principal.
(** [event.update_principal(p, add_permissions={permission_name})] *)
Variable add_permission : Principal -> option string -> ACL -> ACL.
(** [event.update_principal(p, del_permissions={permission_name})] *)
Variable del_permission : Principal -> option string -> ACL -> ACL.
(** The order in which a [for] loop visits a set. *)
Variable iteration : gset Principal -> list Principal.

(** [RHEditableTypePrincipals._process_POST]: the access control list
    after the two loops. *)
Definition RHEditableTypePrincipals_process_POST (editable_type : EditableType.t)
    (principals : gset Principal) (acl : ACL) : ACL :=
  let permission_name := EditableType.editor_permission editable_type in
  let old_principals := explicit_holders acl permission_name in
  let acl :=
    foldl (fun acl p => add_permission p permission_name acl) acl
          (iteration (principals ∖ old_principals)) in
  foldl (fun acl p => del_permission p permission_name acl) acl
        (iteration (old_principals ∖ principals)).

End Principals.
End Management.

(** ** Attachment previewers

    [indico/modules/attachments/preview.py] *)

Module Preview.

(** The compiled patterns of the previewers all have the shape [^literal]
    or [^literal$].  [pattern.search(s)] without [re.MULTILINE]: [^] matches
    at the start of the string only, and [$] at its end or just before a
    newline that ends it. *)
Record Pattern : Type := mkPattern {
  literal : string;
  end_anchored : bool
}.

Definition newline : string := String (Ascii.ascii_of_nat 10) EmptyString.

(** [pattern.search(s) is not None] *)
Definition search (pattern : Pattern) (s : string) : bool :=
  if end_anchored pattern
  then bool_decide (s = literal pattern) || bool_decide (s = (literal pattern +:+ newline)%string)
  else String.prefix (literal pattern) s.

Inductive Previewer : Type :=
| ImagePreviewer
| PDFPreviewer
| MarkdownPreviewer
| TextPreviewer.

#[global] Instance Previewer_eq_dec : EqDecision Previewer.
Proof. solve_decision. Defined.

Definition ALLOWED_CONTENT_TYPE (cls : Previewer) : Pattern :=
  match cls with
  | ImagePreviewer => mkPattern "image/" false
  | PDFPreviewer => mkPattern "application/pdf" true
  | MarkdownPreviewer => mkPattern "text/markdown" true
  | TextPreviewer => mkPattern "text/plain" true
  end.

(** An attachment file, as the previewers read it. *)
Record AttachmentFile : Type := mkAttachmentFile {
  content_type : string
}.

(** [session.user], absent for an anonymous request; of the user only the
    settings are read, with [settings.get(name, default)]. *)
Record SessionUser : Type := mkSessionUser {
  settings : gmap string bool
}.

(** [Previewer.can_preview] *)
Definition base_can_preview (cls : Previewer) (attachment_file : AttachmentFile) : bool :=
  search (ALLOWED_CONTENT_TYPE cls) (content_type attachment_file).

(** [cls.can_preview(attachment_file)]: [PDFPreviewer] overrides the method
    of the base class, the other three inherit it. *)
Definition can_preview (session_user : option SessionUser) (cls : Previewer)
    (attachment_file : AttachmentFile) : bool :=
  match cls with
  | PDFPreviewer =>
      if negb (base_can_preview PDFPreviewer attachment_file) ||
         negb (bool_decide (is_Some session_user))
      then false
      else
        match session_user with
        | Some user => default false (settings user !! "use_previewer_pdf")
        | None => false
        end
  | _ => base_can_preview cls attachment_file
  end.

(** [get_file_previewer]: the first previewer, in the order in which the
    signal values are visited, that can preview the file; [None] when the
    loop ends without one.  Only the four previewers of this module are
    modelled, not those a plugin may add. *)
Definition get_file_previewer (previewers : list Previewer)
    (session_user : option SessionUser) (attachment_file : AttachmentFile)
  : option Previewer :=
  List.find (fun previewer => can_preview session_user previewer attachment_file) previewers.

(** The previewers yielded by [_get_file_previewers]. *)
Definition _get_file_previewers : list Previewer :=
  [ImagePreviewer; PDFPreviewer; MarkdownPreviewer; TextPreviewer].

End Preview.

(** ** Theme settings

    [indico/modules/events/layout/__init__.py] *)

Module Layout.

Inductive outcome (A : Type) : Type :=
| Return (value : A)
| KeyError (key : string).
Arguments Return {A} value.
Arguments KeyError {A} key.

Definition OVERRIDABLE_THEME_SETTINGS : list (string * gset string) :=
  [ ("inline_minutes", {[ "show_notes" ]});
    ("numbered_contributions",
     {[ "hide_duration"; "hide_session_block_time"; "hide_end_time"; "number_contributions" ]}) ].

Section Themes.
(** The values of theme settings. *)
Context {V : Type}.

(** The event as the function reads it: [event.theme] and the value of
    [layout_settings.get(event, 'timetable_theme_settings')]. *)
Record LayoutEvent : Type := mkLayoutEvent {
  theme : string;
  timetable_theme_settings : gmap string V
}.

(** [theme_settings.themes]: per theme its definition, of which the
    optional entry ['settings'] is read. *)
Variable themes : gmap string (option (gmap string V)).

Definition get_theme_global_settings (event : LayoutEvent) (theme_name : string)
  : outcome (gmap string V) :=
  match themes !! theme_name with
  | None => KeyError theme_name
  | Some definition =>
      let settings := default ∅ definition in
      if bool_decide (theme event <> theme_name) then Return settings
      else
        let event_user_settings := timetable_theme_settings event in
        Return
          (foldl
             (fun settings item =>
                match event_user_settings !! fst item with
                | None => settings
                | Some value => gset_to_gmap value (snd item) ∪ settings
                end)
             settings OVERRIDABLE_THEME_SETTINGS)
  end.

End Themes.
End Layout.

(** ** Sample data for the handlers *)

Module MoreSamples.

(** An access control list as a function from a permission to the ids of
    the principals that hold it explicitly. *)
Definition sample_acl : option string -> gset Z :=
  fun permission =>
    if bool_decide (permission = Some "paper_editing") then {[ 1; 2 ]}
    else if bool_decide (permission = Some "slides_editing") then {[ 3 ]}
    else ∅.

Definition sample_holders (acl : option string -> gset Z) (permission : option string) : gset Z :=
  acl permission.

Definition sample_add (p : Z) (permission : option string) (acl : option string -> gset Z)
  : option string -> gset Z :=
  fun q => if bool_decide (q = permission) then {[ p ]} ∪ acl q else acl q.

Definition sample_del (p : Z) (permission : option string) (acl : option string -> gset Z)
  : option string -> gset Z :=
  fun q => if bool_decide (q = permission) then acl q ∖ {[ p ]} else acl q.

(** Two contributions of the sample event; the first has a paper, the
    second had one that was deleted. *)
Definition contribution_a : Contribution.t :=
  Contribution.mk 21 (Samples.sample_event []) (fun _ => false) (fun _ _ => false).
Definition contribution_b : Contribution.t :=
  Contribution.mk 22 (Samples.sample_event []) (fun _ => false) (fun _ _ => false).

Definition sample_editables : list Editable.t :=
  [ Editable.mk 31 contribution_a EditableType.paper None false [];
    Editable.mk 32 contribution_b EditableType.paper None true [] ].

(** A person link is its email address; everybody is an author. *)
Definition sample_person_links (contrib : Contribution.t) : list string :=
  if bool_decide (Contribution.id contrib = 22) then ["dora@example.org"; ""] else ["erin@example.org"].

Definition sample_roles (person_link : string) : gset string := {[ "author" ]}.

Definition sample_themes : gmap string (option (gmap string bool)) :=
  {[ "standard" := Some {[ "show_notes" := false; "hide_duration" := false; "hide_dates" := true ]};
     "plain" := None ]}.

End MoreSamples.

(** * Properties *)

(** ** Queries *)

Section Queries.
Context {A : Type} (key : A -> Z).

Lemma first_order_by_desc_None (rows : list A) :
  first_order_by_desc key rows = None <-> rows = [].
Proof.
  destruct rows as [|r rows']; simpl; [tauto|].
  destruct (first_order_by_desc key rows') as [m|]; [|split; discriminate].
  destruct (key m <? key r); split; discriminate.
Qed.

Lemma first_order_by_desc_greatest (rows : list A) (m : A) :
  first_order_by_desc key rows = Some m ->
  m ∈ rows /\ Forall (fun r => key r <= key m) rows.
Proof.
  revert m. induction rows as [|r rows' IH]; intros m; simpl; [discriminate|].
  destruct (first_order_by_desc key rows') as [m'|] eqn:Hrec.
  - destruct (IH m' eq_refl) as [Hin Hall].
    destruct (Z.ltb_spec (key m') (key r)); intros [= <-].
    + split; [left|]. constructor; [lia|].
      eapply Forall_impl; [exact Hall|]. simpl. intros; lia.
    + split; [by right|]. constructor; [lia|done].
  - apply first_order_by_desc_None in Hrec as ->. intros [= <-].
    split; [left|]. constructor; [lia|constructor].
Qed.

Lemma first_order_by_desc_sorted (rows : list A) :
  StronglySorted (fun a b => key a < key b) rows ->
  first_order_by_desc key rows = last rows.
Proof.
  induction 1 as [|r rows' Hsorted IH Hlt]; [done|].
  simpl. rewrite IH. destruct rows' as [|x l]; [done|].
  rewrite last_cons_cons.
  destruct (last (x :: l)) as [m|] eqn:Hlast.
  - apply last_Some_elem_of in Hlast.
    rewrite Forall_forall in Hlt. apply Hlt in Hlast.
    destruct (Z.ltb_spec (key m) (key r)); [lia|done].
  - by apply last_None in Hlast.
Qed.

End Queries.

Lemma StronglySorted_filter {A : Type} (R : A -> A -> Prop) (f : A -> bool) (l : list A) :
  StronglySorted R l -> StronglySorted R (List.filter f l).
Proof.
  induction 1 as [|x l Hsorted IH Hall]; simpl; [constructor|].
  destruct (f x); [|done].
  constructor; [done|].
  rewrite Forall_forall in *. intros y Hy.
  apply Hall. apply list_elem_of_In, filter_In in Hy as [Hy _].
  by apply list_elem_of_In.
Qed.

Lemma sublist_filter {A : Type} (f : A -> bool) (l : list A) :
  sublist (List.filter f l) l.
Proof.
  induction l as [|x l IH]; simpl; [constructor|].
  destruct (f x); by constructor.
Qed.

Lemma db_case_state_cases (ty : RevisionType.t) :
  db_case Editable.state_cases ty = Some (Editable.state_table ty).
Proof. by destruct ty. Qed.

(** ** The revision log *)

Lemma state_valid_revisions (self : Editable.t) :
  Editable.state self =
  r ← first_order_by_desc EditingRevision.created_dt (Editable.valid_revisions self);
  Some (Editable.state_table (EditingRevision.type r)).
Proof.
  unfold Editable.state, Editable.valid_revisions.
  destruct (first_order_by_desc _ _); simpl; [apply db_case_state_cases|done].
Qed.

Lemma latest_revision_last (self : Editable.t) :
  Editable.latest_revision self = last (Editable.valid_revisions self).
Proof.
  unfold Editable.latest_revision. by destruct (Editable.valid_revisions self).
Qed.

(** C1: for an editable with at least one revision that is not undone, the
    state is [state_table] applied to the type of the newest such revision
    (the one of greatest creation timestamp, which is [latest_revision] when
    the log is in creation order); [state_table] has the ten lines new->new, ready_for_review->ready_for_review,
    needs_submitter_confirmation->needs_submitter_confirmation,
    changes_acceptance->accepted_submitter,
    changes_rejection->needs_submitter_changes,
    needs_submitter_changes->needs_submitter_changes, acceptance->accepted,
    rejection->rejected, replacement->ready_for_review,
    reset->ready_for_review. *)
Theorem state_is_table_of_latest_valid_revision (self : Editable.t) :
  Editable.valid_revisions self <> [] ->
  exists r : EditingRevision.t,
    r ∈ Editable.valid_revisions self /\
    (forall r', r' ∈ Editable.valid_revisions self ->
                EditingRevision.created_dt r' <= EditingRevision.created_dt r) /\
    (Editable.chronological (Editable.revisions self) -> Editable.latest_revision self = Some r) /\
    Editable.state self = Some (Editable.state_table (EditingRevision.type r)).
Proof.
  intros Hne.
  destruct (first_order_by_desc EditingRevision.created_dt (Editable.valid_revisions self))
    as [r|] eqn:Hfirst; [|by apply first_order_by_desc_None in Hfirst].
  exists r.
  destruct (first_order_by_desc_greatest _ _ _ Hfirst) as [Hin Hmax].
  repeat split.
  - exact Hin.
  - intros r' Hr'. rewrite Forall_forall in Hmax. by apply Hmax.
  - intros Hchron. rewrite latest_revision_last, <- Hfirst.
    symmetry. apply first_order_by_desc_sorted.
    by apply StronglySorted_filter.
  - by rewrite state_valid_revisions, Hfirst.
Qed.

(** The log [new, ready_for_review, needs_submitter_changes], nothing undone:
    the state is [needs_submitter_changes]. *)
Lemma state_is_table_of_latest_valid_revision_witness :
  let self := Samples.sample_editable [] None
                [ Samples.revision RevisionType.new false 1 [];
                  Samples.revision RevisionType.ready_for_review false 2 [7];
                  Samples.revision RevisionType.needs_submitter_changes false 3 [] ] in
  Editable.state self = Some EditableState.needs_submitter_changes /\
  exists r : EditingRevision.t,
    r ∈ Editable.valid_revisions self /\
    (forall r', r' ∈ Editable.valid_revisions self ->
                EditingRevision.created_dt r' <= EditingRevision.created_dt r) /\
    (Editable.chronological (Editable.revisions self) -> Editable.latest_revision self = Some r) /\
    Editable.state self = Some (Editable.state_table (EditingRevision.type r)).
Proof.
  split; [reflexivity|].
  apply state_is_table_of_latest_valid_revision. discriminate.
Defined.

Lemma valid_revisions_with_revisions (self : Editable.t) (revs : list EditingRevision.t) :
  Editable.valid_revisions (Editable.with_revisions self revs) =
  List.filter (fun r => negb (EditingRevision.is_undone r)) revs.
Proof. reflexivity. Qed.

Lemma valid_revisions_skip_undone (self : Editable.t) (before after : list EditingRevision.t)
    (u : EditingRevision.t) :
  EditingRevision.is_undone u = true ->
  Editable.valid_revisions (Editable.with_revisions self (before ++ u :: after)) =
  Editable.valid_revisions (Editable.with_revisions self (before ++ after)).
Proof.
  intros Hu. rewrite !valid_revisions_with_revisions, !List.filter_app.
  simpl. by rewrite Hu.
Qed.

(** C4: [valid_revisions] holds exactly the revisions whose [is_undone] is
    false, in the order of the log (so oldest first for a log in creation
    order); [latest_revision] is never an undone revision, and an undone
    revision anywhere in the log changes neither [latest_revision] nor the
    state; for the log [ready_for_review, acceptance(undone)] the state is
    [ready_for_review]. *)
Theorem valid_revisions_excludes_undone (self : Editable.t) :
  (forall r, r ∈ Editable.valid_revisions self <->
             r ∈ Editable.revisions self /\ EditingRevision.is_undone r = false) /\
  sublist (Editable.valid_revisions self) (Editable.revisions self) /\
  (Editable.chronological (Editable.revisions self) ->
   Editable.chronological (Editable.valid_revisions self)) /\
  (forall r, Editable.latest_revision self = Some r -> EditingRevision.is_undone r = false) /\
  (forall before after u,
     EditingRevision.is_undone u = true ->
     Editable.latest_revision (Editable.with_revisions self (before ++ u :: after)) =
       Editable.latest_revision (Editable.with_revisions self (before ++ after)) /\
     Editable.state (Editable.with_revisions self (before ++ u :: after)) =
       Editable.state (Editable.with_revisions self (before ++ after))) /\
  (forall t1 t2 files1 files2,
     let log := [ EditingRevision.mk RevisionType.ready_for_review false t1 files1;
                  EditingRevision.mk RevisionType.acceptance true t2 files2 ] in
     Editable.latest_revision (Editable.with_revisions self log) =
       Some (EditingRevision.mk RevisionType.ready_for_review false t1 files1) /\
     Editable.state (Editable.with_revisions self log) = Some EditableState.ready_for_review).
Proof.
  assert (Hmem : forall r, r ∈ Editable.valid_revisions self <->
             r ∈ Editable.revisions self /\ EditingRevision.is_undone r = false).
  { intros r. unfold Editable.valid_revisions.
    rewrite !list_elem_of_In, filter_In, negb_true_iff. tauto. }
  split; [exact Hmem|].
  split; [apply sublist_filter|].
  split; [apply StronglySorted_filter|].
  split.
  { intros r Hr. rewrite latest_revision_last in Hr.
    apply last_Some_elem_of, Hmem in Hr. tauto. }
  split.
  - intros before after u Hu.
    rewrite !latest_revision_last, !state_valid_revisions.
    by rewrite (valid_revisions_skip_undone self before after u Hu).
  - intros t1 t2 files1 files2. split; reflexivity.
Qed.

(** The log [ready_for_review, acceptance(undone)] at times 1 and 2. *)
Lemma valid_revisions_excludes_undone_witness :
  let self := Samples.sample_editable [] None
                [ Samples.revision RevisionType.ready_for_review false 1 [7];
                  Samples.revision RevisionType.acceptance true 2 [] ] in
  Editable.chronological (Editable.revisions self) /\
  Editable.chronological (Editable.valid_revisions self) /\
  Editable.valid_revisions self = [Samples.revision RevisionType.ready_for_review false 1 [7]] /\
  Editable.state self = Some EditableState.ready_for_review.
Proof.
  intros self.
  assert (Hchron : Editable.chronological (Editable.revisions self)).
  { repeat constructor. }
  split; [exact Hchron|].
  split; [|split; reflexivity].
  exact (proj1 (proj2 (proj2 (valid_revisions_excludes_undone self))) Hchron).
Defined.

(** ** Editables without a valid revision *)

(** C5: with no revision that is not undone, the state and [latest_revision]
    are absent; every permission predicate is a total boolean function
    whose value is the same for any revision log, the empty one included. *)
Theorem no_valid_revision_state_absent
    (editable_type_settings : EditableType.t -> SettingsProxy) (self : Editable.t) :
  Editable.valid_revisions self = [] ->
  Editable.state self = None /\
  Editable.latest_revision self = None /\
  forall (revs : list EditingRevision.t) (user actor : option User),
    let other := Editable.with_revisions self revs in
    Editable._has_general_editor_permissions other user =
      Editable._has_general_editor_permissions self user /\
    Editable.can_see_timeline other user = Editable.can_see_timeline self user /\
    Editable.can_perform_submitter_actions other user =
      Editable.can_perform_submitter_actions self user /\
    Editable.can_perform_editor_actions editable_type_settings other user =
      Editable.can_perform_editor_actions editable_type_settings self user /\
    Editable.can_use_internal_comments other user =
      Editable.can_use_internal_comments self user /\
    Editable.can_see_restricted_revisions other user =
      Editable.can_see_restricted_revisions self user /\
    Editable.can_see_editor_names editable_type_settings other user actor =
      Editable.can_see_editor_names editable_type_settings self user actor /\
    Editable.can_comment other user = Editable.can_comment self user /\
    Editable.can_assign_self editable_type_settings other user =
      Editable.can_assign_self editable_type_settings self user /\
    Editable.can_unassign editable_type_settings other user =
      Editable.can_unassign editable_type_settings self user /\
    Editable.can_delete other user = Editable.can_delete self user.
Proof.
  intros Hempty.
  split; [by rewrite state_valid_revisions, Hempty|].
  split; [by rewrite latest_revision_last, Hempty|].
  intros revs user actor other.
  repeat split; try reflexivity.
  destruct actor as [a|]; simp can_see_editor_names; reflexivity.
Qed.

(** An editable assigned to Bob whose only revision was undone. *)
Lemma no_valid_revision_state_absent_witness :
  let self := Samples.sample_editable [] (Some Samples.bob)
                [Samples.revision RevisionType.acceptance true 5 [1]] in
  Editable.valid_revisions self = [] /\
  Editable.state self = None /\
  Editable.latest_revision self = None /\
  Editable.can_perform_submitter_actions self (Some Samples.carol) = true.
Proof.
  intros self.
  destruct (no_valid_revision_state_absent (Samples.sample_settings []) self eq_refl)
    as (Hstate & Hlatest & _).
  split; [reflexivity|].
  split; [exact Hstate|].
  split; [exact Hlatest|reflexivity].
Defined.

(** ** Review conditions *)

Lemma filter_bool_decide_nil {A : Type} (P : A -> Prop) `{forall x, Decision (P x)} (l : list A) :
  Forall (fun x => ~ P x) l -> List.filter (fun x => bool_decide (P x)) l = [].
Proof.
  induction 1 as [|x l Hx _ IH]; simpl; [done|].
  by rewrite bool_decide_eq_false_2.
Qed.

Lemma first_order_by_desc_bind_nil {A B : Type} (key : A * B -> Z) (f : A -> list B)
    (l : list A) :
  first_order_by_desc key (r ← l; b ← f r; [(r, b)]) = None <-> Forall (fun r => f r = []) l.
Proof.
  rewrite first_order_by_desc_None. induction l as [|r l IH].
  - split; [constructor|done].
  - simpl. rewrite Forall_cons. split.
    + intros Happ. apply app_eq_nil in Happ as [Hr Hl]. split; [|by apply IH].
      by destruct (f r).
    + intros [Hr Hl]. rewrite Hr. by apply IH.
Qed.

(** [latest_revision_with_files] is absent exactly when no revision that is
    not undone has a file. *)
Lemma latest_revision_with_files_None (self : Editable.t) :
  Editable.latest_revision_with_files self = None <->
  forall r, r ∈ Editable.revisions self ->
            EditingRevision.is_undone r = false -> EditingRevision.files r = [].
Proof.
  unfold Editable.latest_revision_with_files. cbv zeta.
  rewrite fmap_None, first_order_by_desc_bind_nil, Forall_forall.
  split.
  - intros Hall r Hin Hundone. apply Hall.
    apply list_elem_of_In, filter_In. split; [by apply list_elem_of_In|].
    by apply bool_decide_eq_true_2.
  - intros Hall r Hin. apply list_elem_of_In, filter_In in Hin as [Hin Hundone].
    apply Hall; [by apply list_elem_of_In|]. by apply bool_decide_eq_true_1 in Hundone.
Qed.

(** C2: [review_conditions_valid] is not total: when a review condition is
    configured for the editable's type and no revision that is not undone
    has a file, [latest_revision_with_files] is [None] and reading its
    [files] raises [AttributeError]; no empty set is used in its place. *)
Theorem review_conditions_valid_raises_without_files
    (self : Editable.t) (cond : EditingReviewCondition.t) :
  cond ∈ Event.editing_review_conditions (Editable.event self) ->
  EditingReviewCondition.type cond = Editable.type self ->
  (forall r, r ∈ Editable.revisions self ->
             EditingRevision.is_undone r = false -> EditingRevision.files r = []) ->
  Editable.review_conditions_valid self = Raise AttributeError.
Proof.
  intros Hin Hty Hfiles. unfold Editable.review_conditions_valid. cbv zeta.
  apply latest_revision_with_files_None in Hfiles as ->.
  destruct (List.filter _ _) as [|c l] eqn:Hquery; [|done].
  exfalso. apply list_elem_of_In in Hin.
  assert (Hc : In cond []); [|done].
  rewrite <- Hquery. apply filter_In. split; [done|]. by apply bool_decide_eq_true_2.
Qed.

(** One condition, the file type 1, and an empty revision log. *)
Lemma review_conditions_valid_raises_without_files_witness :
  Editable.review_conditions_valid (Samples.sample_editable [[1]] None []) =
  Raise AttributeError.
Proof.
  apply (review_conditions_valid_raises_without_files
           (Samples.sample_editable [[1]] None [])
           (EditingReviewCondition.mk EditableType.paper [EditingFileType.mk 1])).
  - apply list_elem_of_In. simpl. by left.
  - reflexivity.
  - intros r Hr. simpl in Hr. by apply elem_of_nil in Hr.
Defined.

(** C3: with no review condition configured for the editable's type,
    [review_conditions_valid] returns true, for the editable as it is and
    for every revision log it could have. *)
Theorem review_conditions_valid_without_conditions (self : Editable.t) :
  Forall (fun cond => EditingReviewCondition.type cond <> Editable.type self)
         (Event.editing_review_conditions (Editable.event self)) ->
  Editable.review_conditions_valid self = Ok true /\
  forall revs : list EditingRevision.t,
    Editable.review_conditions_valid (Editable.with_revisions self revs) = Ok true.
Proof.
  intros Hnone.
  pose proof (filter_bool_decide_nil
                (fun cond => EditingReviewCondition.type cond = Editable.type self)
                _ Hnone) as Hquery.
  split; [|intros revs]; unfold Editable.review_conditions_valid; cbv zeta.
  - by rewrite Hquery.
  - change (Editable.type (Editable.with_revisions self revs)) with (Editable.type self).
    change (Editable.event (Editable.with_revisions self revs)) with (Editable.event self).
    by rewrite Hquery.
Qed.

(** No condition at all, and a log whose only revision has no file. *)
Lemma review_conditions_valid_without_conditions_witness :
  let self := Samples.sample_editable [] None [Samples.revision RevisionType.new false 1 []] in
  Editable.review_conditions_valid self = Ok true /\
  forall revs : list EditingRevision.t,
    Editable.review_conditions_valid (Editable.with_revisions self revs) = Ok true.
Proof.
  intros self. apply (review_conditions_valid_without_conditions self). constructor.
Defined.

(** The matcher on the conditions [{1,2}] and [{3}]: the file types [{3,4}]
    satisfy the second, [{1,4}] satisfy none. *)
Example review_conditions_valid_superset :
  Editable.review_conditions_valid
    (Samples.sample_editable [[1; 2]; [3]] None
       [Samples.revision RevisionType.ready_for_review false 1 [3; 4]]) = Ok true /\
  Editable.review_conditions_valid
    (Samples.sample_editable [[1; 2]; [3]] None
       [Samples.revision RevisionType.ready_for_review false 1 [1; 4]]) = Ok false.
Proof. split; vm_compute; reflexivity. Qed.

(** ** Permissions *)

Section PermissionFacts.
Variable editable_type_settings : EditableType.t -> SettingsProxy.

Local Abbreviation setting self name :=
  (get (editable_type_settings (Editable.type self)) (Editable.event self) name).
Local Abbreviation manages self user permission :=
  (Event.can_manage (Editable.event self) user permission).
Local Abbreviation editor_permission self :=
  (EditableType.editor_permission (Editable.type self)).

Lemma editor_is_true (self : Editable.t) (user : option User) :
  Editable.editor_is self user = true <-> Editable.editor self = user.
Proof. unfold Editable.editor_is. apply bool_decide_eq_true. Qed.

Lemma manager_has_general_editor_permissions (self : Editable.t) (user : option User) :
  manages self user (Some "editing_manager") = true ->
  Editable._has_general_editor_permissions self user = true.
Proof. unfold Editable._has_general_editor_permissions. by intros ->. Qed.

Lemma editor_has_general_editor_permissions (self : Editable.t) (user : option User) :
  manages self user (editor_permission self) = true ->
  Editable._has_general_editor_permissions self user = true.
Proof.
  unfold Editable._has_general_editor_permissions. intros ->. apply orb_true_r.
Qed.

Lemma general_editor_permissions_see_timeline (self : Editable.t) (user : option User) :
  Editable._has_general_editor_permissions self user = true ->
  Editable.can_see_timeline self user = true.
Proof. unfold Editable.can_see_timeline. by intros ->. Qed.

Lemma can_perform_editor_actions_closed_form (self : Editable.t) (user : option User) :
  Editable.can_perform_editor_actions editable_type_settings self user =
  Editable.can_see_timeline self user &&
  ((Editable.editor_is self user && manages self user (Some "editing_manager")) ||
   (setting self "editing_enabled" && Editable.editor_is self user &&
    manages self user (editor_permission self))).
Proof.
  unfold Editable.can_perform_editor_actions.
  destruct (Editable.can_see_timeline self user); simpl; [|done].
  destruct (Editable.editor_is self user); simpl.
  - destruct (manages self user (Some "editing_manager")); simpl; [done|].
    destruct (setting self "editing_enabled"); simpl; [|done].
    by destruct (manages self user (editor_permission self)).
  - destruct (setting self "editing_enabled"); by simpl.
Qed.

(** C6: [can_perform_editor_actions] is false without [can_see_timeline];
    it is true for the assigned editor holding [editing_manager], whatever
    [editing_enabled] says; in every other case it is true only with
    [editing_enabled] on, the user being the assigned editor and holding the
    editor permission of the type (and then it is true). *)
Theorem can_perform_editor_actions_spec (self : Editable.t) (user : option User) :
  (Editable.can_see_timeline self user = false ->
   Editable.can_perform_editor_actions editable_type_settings self user = false) /\
  (Editable.editor self = user ->
   manages self user (Some "editing_manager") = true ->
   Editable.can_perform_editor_actions editable_type_settings self user = true) /\
  (~ (Editable.editor self = user /\ manages self user (Some "editing_manager") = true) ->
   (Editable.can_perform_editor_actions editable_type_settings self user = true <->
    setting self "editing_enabled" = true /\
    Editable.editor self = user /\
    manages self user (editor_permission self) = true)).
Proof.
  rewrite can_perform_editor_actions_closed_form.
  split; [by intros ->|]. split.
  - intros Heditor Hmanager.
    apply editor_is_true in Heditor.
    rewrite (general_editor_permissions_see_timeline _ _
               (manager_has_general_editor_permissions _ _ Hmanager)).
    by rewrite Heditor, Hmanager.
  - intros Hnot. rewrite <- editor_is_true in *.
    assert (Hsee : manages self user (editor_permission self) = true ->
                   Editable.can_see_timeline self user = true).
    { intros Hperm.
      by apply general_editor_permissions_see_timeline,
               editor_has_general_editor_permissions. }
    destruct (Editable.editor_is self user),
             (manages self user (Some "editing_manager")),
             (setting self "editing_enabled"),
             (manages self user (editor_permission self));
      simpl in *;
      try (exfalso; apply Hnot; done);
      try rewrite (Hsee eq_refl); rewrite ?andb_false_r; simpl;
      intuition discriminate.
Qed.

(** C9: [can_perform_submitter_actions] is [can_submit_proceedings]; the
    timeline guard never changes the answer. *)
Theorem can_perform_submitter_actions_is_can_submit_proceedings
    (self : Editable.t) (user : option User) :
  Editable.can_perform_submitter_actions self user =
  Contribution.can_submit_proceedings (Editable.contribution self) user.
Proof.
  unfold Editable.can_perform_submitter_actions, Editable.can_see_timeline.
  destruct (Contribution.can_submit_proceedings (Editable.contribution self) user);
    [|by destruct (negb _)].
  by rewrite orb_true_r.
Qed.

Lemma can_assign_self_guard (self : Editable.t) (user : option User) :
  is_Some (Editable.editor self) ->
  Editable.editor self = user \/ Editable.can_unassign editable_type_settings self user = false ->
  Editable.can_assign_self editable_type_settings self user = false.
Proof.
  unfold Editable.can_assign_self. cbv zeta.
  intros Hsome Hor.
  rewrite (bool_decide_eq_true_2 _ Hsome). simpl.
  destruct Hor as [Heq|Hno].
  - apply editor_is_true in Heq. by rewrite Heq.
  - rewrite Hno. simpl. by rewrite orb_true_r.
Qed.

(** C7: [can_assign_self] is false when an editor is assigned and that
    editor is the user or the user cannot unassign; in particular it is
    false for the assigned editor themself; in every other case it is true
    exactly when the user holds the editor permission of the type with
    [editing_enabled] and [self_assign_allowed] on, or holds
    [editing_manager]. *)
Theorem can_assign_self_spec (self : Editable.t) (user : option User) :
  (is_Some (Editable.editor self) ->
   Editable.editor self = user \/ Editable.can_unassign editable_type_settings self user = false ->
   Editable.can_assign_self editable_type_settings self user = false) /\
  (forall u : User,
     Editable.editor self = Some u ->
     Editable.can_assign_self editable_type_settings self (Some u) = false) /\
  (~ (is_Some (Editable.editor self) /\
      (Editable.editor self = user \/
       Editable.can_unassign editable_type_settings self user = false)) ->
   (Editable.can_assign_self editable_type_settings self user = true <->
    (manages self user (editor_permission self) = true /\
     setting self "editing_enabled" = true /\
     setting self "self_assign_allowed" = true) \/
    manages self user (Some "editing_manager") = true)).
Proof.
  split; [apply can_assign_self_guard|split].
  - intros u Hu. apply can_assign_self_guard; [rewrite Hu; eauto|by left].
  - intros Hnot. unfold Editable.can_assign_self. cbv zeta.
    assert (Hguard : bool_decide (is_Some (Editable.editor self)) &&
              (Editable.editor_is self user ||
               negb (Editable.can_unassign editable_type_settings self user)) = false).
    { apply not_true_is_false. intros Hguard. apply Hnot.
      apply andb_true_iff in Hguard as [Hsome Hor].
      apply bool_decide_eq_true_1 in Hsome. split; [done|].
      apply orb_true_iff in Hor as [Heq|Hno].
      - left. by apply editor_is_true.
      - right. by apply negb_true_iff. }
    rewrite Hguard.
    rewrite orb_true_iff, !andb_true_iff. tauto.
Qed.

(** C10: when an editor is assigned and [can_assign_self] holds for a user,
    that user is not the assigned editor and [can_unassign] holds for
    them. *)
Theorem can_assign_self_implies_can_unassign
    (self : Editable.t) (user : option User) (assigned : User) :
  Editable.editor self = Some assigned ->
  Editable.can_assign_self editable_type_settings self user = true ->
  user <> Some assigned /\ Editable.can_unassign editable_type_settings self user = true.
Proof.
  intros Hassigned Hcan.
  pose proof (can_assign_self_guard self user) as Hfalse.
  assert (Hsome : is_Some (Editable.editor self)) by (rewrite Hassigned; eauto).
  split.
  - intros ->. rewrite Hfalse in Hcan; [done|done|by left].
  - destruct (Editable.can_unassign editable_type_settings self user) eqn:Hun; [done|].
    rewrite Hfalse in Hcan; [done|done|by right].
Qed.

(** C8: with [anonymous_team] off, [can_see_editor_names] is true for every
    user and actor; with it on, it is true exactly when an actor is given
    who cannot see editor names themself (the inner call has no actor, so it
    is decided by the actor's general editor permissions), or the user has
    general editor permissions. *)
Theorem can_see_editor_names_spec (self : Editable.t) (user actor : option User) :
  (setting self "anonymous_team" = false ->
   Editable.can_see_editor_names editable_type_settings self user actor = true) /\
  (setting self "anonymous_team" = true ->
   (Editable.can_see_editor_names editable_type_settings self user actor = true <->
    (exists a : User,
       actor = Some a /\
       Editable.can_see_editor_names editable_type_settings self (Some a) None = false) \/
    Editable._has_general_editor_permissions self user = true) /\
   (forall a : User,
      Editable.can_see_editor_names editable_type_settings self (Some a) None =
      Editable._has_general_editor_permissions self (Some a))).
Proof.
  split.
  - intros Hoff. destruct actor as [a|]; simp can_see_editor_names; by rewrite Hoff.
  - intros Hon. split.
    + destruct actor as [a|]; simp can_see_editor_names; rewrite Hon; simpl.
      * rewrite orb_true_iff, negb_true_iff. split.
        -- intros [Hactor|Huser]; [left; exists a; split; [done|]|by right].
           revert Hactor. simp can_see_editor_names. by rewrite Hon.
        -- intros [(a' & [= <-] & Hactor)|Huser]; [left|by right].
           revert Hactor. simp can_see_editor_names. by rewrite Hon.
      * split; [by right|]. by intros [(a & ? & _)|Huser].
    + intros a. simp can_see_editor_names. by rewrite Hon.
Qed.

End PermissionFacts.

(** ** The predicates on the sample event *)

(** Alice, editing manager and assigned editor, acts although editing is
    switched off. *)
Lemma can_perform_editor_actions_spec_witness :
  let settings := Samples.sample_settings [] in
  let self := Samples.sample_editable [] (Some Samples.alice) [] in
  get (settings (Editable.type self)) (Editable.event self) "editing_enabled" = false /\
  Editable.can_perform_editor_actions settings self (Some Samples.alice) = true.
Proof.
  intros settings self. split; [reflexivity|].
  apply (proj1 (proj2 (can_perform_editor_actions_spec settings self (Some Samples.alice))));
    reflexivity.
Defined.

(** Bob, a paper editor, may take an unassigned paper when editing and
    self-assignment are on. *)
Lemma can_assign_self_spec_witness :
  let settings := Samples.sample_settings ["editing_enabled"; "self_assign_allowed"] in
  let self := Samples.sample_editable [] None [] in
  Editable.can_assign_self settings self (Some Samples.bob) = true.
Proof.
  intros settings self.
  apply (proj2 (proj2 (can_assign_self_spec settings self (Some Samples.bob)))).
  - intros [[u Hu] _]. discriminate Hu.
  - left. repeat split.
Defined.

(** Alice takes over the paper assigned to Bob. *)
Lemma can_assign_self_implies_can_unassign_witness :
  let settings := Samples.sample_settings [] in
  let self := Samples.sample_editable [] (Some Samples.bob) [] in
  Some Samples.alice <> Some Samples.bob /\
  Editable.can_unassign settings self (Some Samples.alice) = true.
Proof.
  intros settings self.
  apply (can_assign_self_implies_can_unassign settings self (Some Samples.alice) Samples.bob);
    reflexivity.
Defined.

(** With an anonymous team, Carol sees the name of an actor who is not part
    of the editing team, here Carol herself. *)
Lemma can_see_editor_names_spec_witness :
  let settings := Samples.sample_settings ["anonymous_team"] in
  let self := Samples.sample_editable [] None [] in
  Editable.can_see_editor_names settings self (Some Samples.carol) (Some Samples.carol) = true /\
  Editable.can_see_editor_names settings self (Some Samples.carol) None = false.
Proof.
  intros settings self.
  destruct (can_see_editor_names_spec settings self (Some Samples.carol) (Some Samples.carol))
    as [_ Hon].
  destruct (Hon eq_refl) as [Hiff Hhop].
  assert (Hinner :
    Editable.can_see_editor_names settings self (Some Samples.carol) None = false).
  { rewrite Hhop. reflexivity. }
  split; [|exact Hinner].
  apply Hiff. left. exists Samples.carol. split; [reflexivity|exact Hinner].
Defined.

(** * Further properties of the editable *)

(** ** State and revisions *)

Lemma valid_revisions_nil (self : Editable.t) :
  Editable.valid_revisions self = [] <->
  Forall (fun r => EditingRevision.is_undone r = true) (Editable.revisions self).
Proof.
  unfold Editable.valid_revisions.
  induction (Editable.revisions self) as [|r l IH]; simpl.
  - split; [constructor|done].
  - rewrite Forall_cons. destruct (EditingRevision.is_undone r); simpl.
    + rewrite IH. tauto.
    + split; [discriminate|]. intros [? _]. discriminate.
Qed.

(** X1: the state column and [latest_revision] are absent together, and
    exactly when every revision of the editable is undone; no order of the
    log is needed for this. *)
Theorem state_absent_iff_all_undone (self : Editable.t) :
  (Editable.state self = None <-> Editable.latest_revision self = None) /\
  (Editable.state self = None <->
   Forall (fun r => EditingRevision.is_undone r = true) (Editable.revisions self)).
Proof.
  assert (Hstate : Editable.state self = None <-> Editable.valid_revisions self = []).
  { rewrite state_valid_revisions,
      <- (first_order_by_desc_None EditingRevision.created_dt).
    destruct (first_order_by_desc _ _); simpl; split; done. }
  split.
  - by rewrite Hstate, latest_revision_last, last_None.
  - by rewrite Hstate, valid_revisions_nil.
Qed.

(** ** The revision judged by the review conditions *)

Lemma elem_of_joined_files (revs : list EditingRevision.t) (r : EditingRevision.t)
    (f : EditingRevisionFile.t) :
  (r, f) ∈ (r ← revs; f ← EditingRevision.files r; [(r, f)]) <->
  r ∈ revs /\ f ∈ EditingRevision.files r.
Proof.
  rewrite list_elem_of_bind. split.
  - intros (r' & Hf & Hr'). apply list_elem_of_bind in Hf as (f' & Heq & Hf').
    apply list_elem_of_singleton in Heq as [= -> ->]. done.
  - intros [Hr Hf]. exists r. split; [|done].
    apply list_elem_of_bind. exists f. split; [|done]. by apply list_elem_of_singleton.
Qed.

Lemma elem_of_not_undone (revs : list EditingRevision.t) (r : EditingRevision.t) :
  r ∈ List.filter (fun r => bool_decide (EditingRevision.is_undone r = false)) revs <->
  r ∈ revs /\ EditingRevision.is_undone r = false.
Proof. by rewrite !list_elem_of_In, filter_In, bool_decide_eq_true. Qed.

Lemma latest_revision_with_files_Some (self : Editable.t) (r : EditingRevision.t) :
  Editable.latest_revision_with_files self = Some r ->
  r ∈ Editable.revisions self /\
  EditingRevision.is_undone r = false /\
  EditingRevision.files r <> [] /\
  forall r', r' ∈ Editable.revisions self ->
             EditingRevision.is_undone r' = false ->
             EditingRevision.files r' <> [] ->
             EditingRevision.created_dt r' <= EditingRevision.created_dt r.
Proof.
  unfold Editable.latest_revision_with_files. cbv zeta.
  intros Hfirst. apply fmap_Some in Hfirst as ([r0 f] & Hfirst & ->).
  apply first_order_by_desc_greatest in Hfirst as [Hin Hmax].
  apply elem_of_joined_files in Hin as [Hin Hf].
  apply elem_of_not_undone in Hin as [Hin Hundone]. simpl.
  split; [done|]. split; [done|]. split.
  - intros Hnil. rewrite Hnil in Hf. by apply elem_of_nil in Hf.
  - intros r' Hr' Hundone' Hfiles'.
    destruct (EditingRevision.files r') as [|f' fs'] eqn:Hfs; [done|].
    rewrite Forall_forall in Hmax.
    apply (Hmax (r', f')). apply elem_of_joined_files. split.
    + by apply elem_of_not_undone.
    + rewrite Hfs. left.
Qed.

(** X2: the revision returned by [latest_revision_with_files] belongs to the
    editable, is not undone, has at least one file, and no other such
    revision was created later. *)
Theorem latest_revision_with_files_newest (self : Editable.t) (r : EditingRevision.t) :
  Editable.latest_revision_with_files self = Some r ->
  r ∈ Editable.revisions self /\
  EditingRevision.is_undone r = false /\
  EditingRevision.files r <> [] /\
  forall r', r' ∈ Editable.revisions self ->
             EditingRevision.is_undone r' = false ->
             EditingRevision.files r' <> [] ->
             EditingRevision.created_dt r' <= EditingRevision.created_dt r.
Proof. apply latest_revision_with_files_Some. Qed.

Lemma chronological_same_created_dt (revs : list EditingRevision.t)
    (a b : EditingRevision.t) :
  Editable.chronological revs -> a ∈ revs -> b ∈ revs ->
  EditingRevision.created_dt a = EditingRevision.created_dt b -> a = b.
Proof.
  induction 1 as [|r l Hsorted IH Hall]; intros Ha Hb Heq.
  - by apply elem_of_nil in Ha.
  - rewrite Forall_forall in Hall.
    apply elem_of_cons in Ha as [->|Ha]; apply elem_of_cons in Hb as [->|Hb].
    + done.
    + apply Hall in Hb. lia.
    + apply Hall in Ha. lia.
    + by apply IH.
Qed.

Lemma chronological_last_greatest (revs : list EditingRevision.t)
    (r r' : EditingRevision.t) :
  Editable.chronological revs -> last revs = Some r -> r' ∈ revs ->
  EditingRevision.created_dt r' <= EditingRevision.created_dt r.
Proof.
  intros Hchron Hlast Hr'.
  rewrite <- (first_order_by_desc_sorted EditingRevision.created_dt revs Hchron) in Hlast.
  apply first_order_by_desc_greatest in Hlast as [_ Hmax].
  rewrite Forall_forall in Hmax. by apply Hmax.
Qed.

(** X3: in a log kept in creation order, when the latest valid revision
    has files it is the revision that [latest_revision_with_files] returns,
    hence the one the review conditions are checked against. *)
Theorem latest_revision_with_files_is_latest_revision
    (self : Editable.t) (r : EditingRevision.t) :
  Editable.chronological (Editable.revisions self) ->
  Editable.latest_revision self = Some r ->
  EditingRevision.files r <> [] ->
  Editable.latest_revision_with_files self = Some r.
Proof.
  intros Hchron Hlatest Hfiles.
  rewrite latest_revision_last in Hlatest.
  assert (Hvalid : r ∈ Editable.valid_revisions self) by by apply last_Some_elem_of.
  assert (Hr : r ∈ Editable.revisions self /\ EditingRevision.is_undone r = false).
  { unfold Editable.valid_revisions in Hvalid.
    apply list_elem_of_In, filter_In in Hvalid as [Hin Hundone].
    split; [by apply list_elem_of_In|by apply negb_true_iff]. }
  destruct Hr as [Hin Hundone].
  destruct (Editable.latest_revision_with_files self) as [r'|] eqn:Hwith.
  - f_equal.
    destruct (latest_revision_with_files_Some self r' Hwith)
      as (Hin' & Hundone' & Hfiles' & Hmax).
    apply (chronological_same_created_dt (Editable.revisions self)); try done.
    apply Z.le_antisymm; [|by apply Hmax].
    apply (chronological_last_greatest (Editable.valid_revisions self)).
    + by apply StronglySorted_filter.
    + done.
    + unfold Editable.valid_revisions.
      apply list_elem_of_In, filter_In. split; [by apply list_elem_of_In|].
      by apply negb_true_iff.
  - exfalso. apply Hfiles.
    by apply (proj1 (latest_revision_with_files_None self) Hwith r).
Qed.

(** X4: [review_conditions_valid] raises only in one situation: a review
    condition exists for the editable's type and no revision that is not
    undone has a file.  In every other case it returns a boolean. *)
Theorem review_conditions_valid_raises_iff (self : Editable.t) (e : exn) :
  Editable.review_conditions_valid self = Raise e <->
  (exists cond, cond ∈ Event.editing_review_conditions (Editable.event self) /\
                EditingReviewCondition.type cond = Editable.type self) /\
  (forall r, r ∈ Editable.revisions self ->
             EditingRevision.is_undone r = false -> EditingRevision.files r = []).
Proof.
  rewrite <- latest_revision_with_files_None.
  unfold Editable.review_conditions_valid. cbv zeta.
  destruct (List.filter _ (Event.editing_review_conditions _)) as [|c l] eqn:Hquery; simpl.
  - split; [discriminate|]. intros [(cond & Hin & Hty) _].
    assert (Hc : In cond []); [|done].
    rewrite <- Hquery. apply filter_In. split; [by apply list_elem_of_In|].
    by apply bool_decide_eq_true_2.
  - assert (Hc : In c (c :: l)) by by left.
    rewrite <- Hquery in Hc. apply filter_In in Hc as [Hin Hty].
    apply bool_decide_eq_true_1 in Hty. apply list_elem_of_In in Hin.
    destruct (Editable.latest_revision_with_files self) as [rev|].
    + split; [discriminate|]. intros [_ ?]. discriminate.
    + destruct e. split; [|done]. intros _. split; [|done]. by exists c.
Qed.

Lemma required_file_types_covered (cond : EditingReviewCondition.t) (rev : EditingRevision.t) :
  list_to_set (C := gset Z) (map EditingFileType.id (EditingReviewCondition.file_types cond)) ⊆
  list_to_set (C := gset Z) (map EditingRevisionFile.file_type_id (EditingRevision.files rev)) <->
  forall ft, ft ∈ EditingReviewCondition.file_types cond ->
             exists f, f ∈ EditingRevision.files rev /\
                       EditingRevisionFile.file_type_id f = EditingFileType.id ft.
Proof.
  rewrite elem_of_subseteq. split.
  - intros Hsub ft Hft.
    specialize (Hsub (EditingFileType.id ft)).
    rewrite !elem_of_list_to_set, !list_elem_of_In, !in_map_iff in Hsub.
    destruct Hsub as (f & Hid & Hf).
    + exists ft. split; [done|]. by apply list_elem_of_In.
    + exists f. split; [by apply list_elem_of_In|done].
  - intros Hall x.
    rewrite !elem_of_list_to_set, !list_elem_of_In, !in_map_iff.
    intros (ft & <- & Hft). apply list_elem_of_In in Hft.
    destruct (Hall ft Hft) as (f & Hf & Hid).
    exists f. split; [done|]. by apply list_elem_of_In.
Qed.

(** X5: once some revision with files exists, [review_conditions_valid]
    returns a boolean, and that boolean is true exactly when no condition is
    configured for the editable's type or the files of the revision returned
    by [latest_revision_with_files] include every file type of at least one
    of those conditions. *)
Theorem review_conditions_valid_true_iff (self : Editable.t) (rev : EditingRevision.t) :
  Editable.latest_revision_with_files self = Some rev ->
  exists b : bool,
    Editable.review_conditions_valid self = Ok b /\
    (b = true <->
     Forall (fun cond => EditingReviewCondition.type cond <> Editable.type self)
            (Event.editing_review_conditions (Editable.event self)) \/
     exists cond,
       cond ∈ Event.editing_review_conditions (Editable.event self) /\
       EditingReviewCondition.type cond = Editable.type self /\
       forall ft, ft ∈ EditingReviewCondition.file_types cond ->
                  exists f, f ∈ EditingRevision.files rev /\
                            EditingRevisionFile.file_type_id f = EditingFileType.id ft).
Proof.
  intros Hwith. unfold Editable.review_conditions_valid. cbv zeta. rewrite Hwith.
  set (conds := Event.editing_review_conditions (Editable.event self)).
  assert (Hquery : forall cond,
    In cond (List.filter
               (fun cond => bool_decide (EditingReviewCondition.type cond = Editable.type self))
               conds) <->
    cond ∈ conds /\ EditingReviewCondition.type cond = Editable.type self).
  { intros cond. by rewrite filter_In, bool_decide_eq_true, list_elem_of_In. }
  destruct (List.filter _ conds) as [|c l] eqn:Hfilter.
  - exists true. split; [done|]. split; [|done]. intros _. left.
    apply Forall_forall. intros cond Hin Hty.
    by apply (proj2 (Hquery cond)).
  - eexists. split; [reflexivity|].
    rewrite existsb_exists. split.
    + intros (ids & Hids & Hsub). right.
      apply in_map_iff in Hids as (cond & <- & Hcond).
      apply Hquery in Hcond as [Hin Hty].
      exists cond. split; [done|]. split; [done|].
      apply required_file_types_covered. by apply bool_decide_eq_true_1 in Hsub.
    + intros [Hnone|(cond & Hin & Hty & Hcover)].
      * exfalso. rewrite Forall_forall in Hnone.
        destruct (proj1 (Hquery c)) as [Hc Hty]; [by left|].
        by apply (Hnone c).
      * eexists. split.
        -- apply in_map_iff. exists cond. split; [reflexivity|]. by apply Hquery.
        -- apply bool_decide_eq_true_2. by apply required_file_types_covered.
Qed.

(** ** The revision count *)

Lemma revision_ids_of_rows (rows : list (nat * EditingRevision.t)) :
  NoDup (rows.*1) ->
  let ids : gset nat :=
    list_to_set
      (map (fun joined_row : (nat * EditingRevision.t) * EditingRevisionFile.t =>
              fst (fst joined_row))
           (row ← rows; f ← EditingRevision.files (snd row); [(row, f)])) in
  size ids =
    length (List.filter (fun row => bool_decide (EditingRevision.files (snd row) <> [])) rows) /\
  forall i, i ∈ ids -> i ∈ rows.*1.
Proof.
  induction rows as [|[i r] rows IH]; intros Hnodup ids.
  - split; [done|]. intros i Hi. by apply elem_of_empty in Hi.
  - apply NoDup_cons in Hnodup as [Hfresh Hnodup].
    destruct (IH Hnodup) as [IHsize IHin]. clear IH.
    subst ids. rewrite bind_cons, map_app, list_to_set_app_L.
    assert (Hhead :
      list_to_set (C := gset nat)
        (map (fun joined_row : (nat * EditingRevision.t) * EditingRevisionFile.t =>
                fst (fst joined_row))
             (EditingRevision.files (snd (i, r)) ≫= (fun f => [((i, r), f)]))) =
      if bool_decide (EditingRevision.files r <> []) then {[ i ]} else ∅).
    { simpl. destruct (EditingRevision.files r) as [|f fs]; [done|].
      rewrite bool_decide_eq_true_2 by done.
      apply set_eq. intros j.
      rewrite elem_of_list_to_set, list_elem_of_In, in_map_iff, elem_of_singleton.
      split.
      - intros ([[j' r'] f'] & <- & Hin). apply list_elem_of_In in Hin.
        apply list_elem_of_bind in Hin as (f'' & Heq & _).
        by apply list_elem_of_singleton in Heq as [= -> _ _].
      - intros ->. exists ((i, r), f). split; [done|]. by left. }
    rewrite Hhead. cbn [List.filter snd]. split.
    + case_bool_decide; simpl.
      * rewrite size_union, size_singleton, IHsize; [done|].
        apply disjoint_singleton_l. intros Hi. by apply Hfresh, IHin.
      * by rewrite (left_id_L ∅ (∪)).
    + intros j Hj. apply elem_of_union in Hj as [Hj|Hj].
      * case_bool_decide; [|by apply elem_of_empty in Hj].
        apply elem_of_singleton in Hj as ->. left.
      * right. by apply IHin.
Qed.

Lemma NoDup_imap_pair_fst {A : Type} (l : list A) : NoDup ((imap pair l).*1).
Proof.
  rewrite fmap_imap.
  rewrite (imap_ext _ (fun j _ => j)) by done.
  rewrite (imap_seq_0 l (fun j => j)), list_fmap_id.
  apply NoDup_seq.
Qed.

Lemma filter_imap_length {A : Type} (f : A -> bool) (g : nat -> A -> nat * A) (l : list A) :
  (forall n x, snd (g n x) = x) ->
  length (List.filter (fun row : nat * A => f (snd row)) (imap g l)) =
  length (List.filter f l).
Proof.
  revert g. induction l as [|x l IH]; intros g Hg; [done|].
  rewrite imap_cons. simpl. rewrite Hg.
  destruct (f x); simpl; rewrite IH; try done; intros; apply Hg.
Qed.

Lemma filter_filter_andb {A : Type} (p q : A -> bool) (l : list A) :
  List.filter q (List.filter p l) = List.filter (fun x => p x && q x) l.
Proof.
  induction l as [|x l IH]; [done|].
  simpl. destruct (p x); simpl; [|done]. destruct (q x); by rewrite IH.
Qed.

(** X6: [revision_count] is the number of revisions that are not undone and
    have at least one file, however many files each has; it is zero exactly
    when [latest_revision_with_files] is absent. *)
Theorem revision_count_counts_revisions_with_files (self : Editable.t) :
  Editable.revision_count self =
    length (List.filter
              (fun r => negb (EditingRevision.is_undone r) &&
                        bool_decide (EditingRevision.files r <> []))
              (Editable.revisions self)) /\
  (Editable.revision_count self = 0%nat <-> Editable.latest_revision_with_files self = None).
Proof.
  assert (Hcount : Editable.revision_count self =
    length (List.filter
              (fun r => negb (EditingRevision.is_undone r) &&
                        bool_decide (EditingRevision.files r <> []))
              (Editable.revisions self))).
  { unfold Editable.revision_count. cbv zeta.
    set (rows := List.filter _ (imap pair (Editable.revisions self))).
    assert (Hnodup : NoDup (rows.*1)).
    { subst rows. eapply NoDup_fmap_fst.
      + intros i r1 r2 H1 H2.
        apply list_elem_of_In, filter_In in H1 as [H1 _].
        apply list_elem_of_In, filter_In in H2 as [H2 _].
        apply list_elem_of_In, elem_of_lookup_imap_1 in H1 as (j1 & y1 & [= -> ->] & Hy1).
        apply list_elem_of_In, elem_of_lookup_imap_1 in H2 as (j2 & y2 & [= -> ->] & Hy2).
        congruence.
      + apply NoDup_ListNoDup, List.NoDup_filter, NoDup_ListNoDup.
        apply NoDup_fmap_1 with (f := fst). apply NoDup_imap_pair_fst. }
    destruct (revision_ids_of_rows rows Hnodup) as [-> _].
    subst rows. rewrite filter_filter_andb.
    pose proof (filter_imap_length
                  (fun r => negb (EditingRevision.is_undone r) &&
                            bool_decide (EditingRevision.files r <> []))
                  pair (Editable.revisions self)) as Hlength.
    by apply Hlength. }
  split; [exact Hcount|].
  rewrite Hcount, latest_revision_with_files_None, length_zero_iff_nil.
  clear Hcount.
  induction (Editable.revisions self) as [|r l IH]; simpl.
  - split; [|done]. intros _ r Hr. by apply elem_of_nil in Hr.
  - destruct (EditingRevision.is_undone r) eqn:Hundone; simpl.
    + rewrite IH. split.
      * intros Hall r' Hr'. apply elem_of_cons in Hr' as [->|Hr']; [congruence|by apply Hall].
      * intros Hall r' Hr'. apply Hall. by right.
    + case_bool_decide as Hfiles; simpl.
      * split; [discriminate|]. intros Hall. exfalso. apply Hfiles, Hall; [left|done].
      * rewrite IH. split.
        -- intros Hall r' Hr'. apply elem_of_cons in Hr' as [->|Hr']; [done|by apply Hall].
        -- intros Hall r' Hr'. apply Hall. by right.
Qed.

(** ** Consequences for the permission predicates *)

Lemma editor_permission_inj (a b : EditableType.t) :
  EditableType.editor_permission a = EditableType.editor_permission b -> a = b.
Proof. by destruct a, b. Qed.

Lemma editor_permission_not_manager (a : EditableType.t) :
  EditableType.editor_permission a <> Some "editing_manager" /\
  EditableType.editor_permission a <> None.
Proof. by destruct a. Qed.

Section PermissionConsequences.
Variable editable_type_settings : EditableType.t -> SettingsProxy.

Local Abbreviation setting self name :=
  (get (editable_type_settings (Editable.type self)) (Editable.event self) name).
Local Abbreviation manages self user permission :=
  (Event.can_manage (Editable.event self) user permission).
Local Abbreviation editor_permission self :=
  (EditableType.editor_permission (Editable.type self)).

(** X7: whoever may comment on an editable may also see its timeline. *)
Theorem can_comment_implies_can_see_timeline (self : Editable.t) (user : option User) :
  Editable.can_comment self user = true ->
  Editable.can_see_timeline self user = true.
Proof.
  unfold Editable.can_comment, Editable.can_see_timeline,
    Editable._has_general_editor_permissions.
  destruct (manages self user (editor_permission self)),
           (manages self user (Some "editing_manager")),
           (Contribution.is_user_associated (Editable.contribution self) user true),
           (Contribution.can_submit_proceedings (Editable.contribution self) user);
    done.
Qed.

(** X8: editor actions are only ever open to the assigned editor, and that
    editor then has general editor permissions, so internal comments and
    restricted revisions are open to them and they may comment. *)
Theorem can_perform_editor_actions_implies_editor_access
    (self : Editable.t) (user : option User) :
  Editable.can_perform_editor_actions editable_type_settings self user = true ->
  Editable.editor self = user /\
  Editable._has_general_editor_permissions self user = true /\
  Editable.can_use_internal_comments self user = true /\
  Editable.can_see_restricted_revisions self user = true /\
  Editable.can_comment self user = true.
Proof.
  rewrite can_perform_editor_actions_closed_form.
  unfold Editable.can_use_internal_comments, Editable.can_see_restricted_revisions,
    Editable.can_comment, Editable._has_general_editor_permissions.
  rewrite <- editor_is_true.
  destruct (Editable.can_see_timeline self user),
           (Editable.editor_is self user),
           (manages self user (Some "editing_manager")),
           (setting self "editing_enabled"),
           (manages self user (editor_permission self));
    simpl; try discriminate; intros _; rewrite ?orb_true_r; done.
Qed.

(** X9: an editable assigned to somebody else can be taken over, and its
    editor unassigned, by exactly the users holding [editing_manager]. *)
Theorem only_manager_takes_over
    (self : Editable.t) (user : option User) (assigned : User) :
  Editable.editor self = Some assigned ->
  user <> Some assigned ->
  Editable.can_unassign editable_type_settings self user =
    manages self user (Some "editing_manager") /\
  Editable.can_assign_self editable_type_settings self user =
    manages self user (Some "editing_manager").
Proof.
  intros Hassigned Hother.
  assert (Hnot : Editable.editor_is self user = false).
  { apply not_true_is_false. rewrite editor_is_true. congruence. }
  assert (Hunassign : Editable.can_unassign editable_type_settings self user =
                      manages self user (Some "editing_manager")).
  { unfold Editable.can_unassign. cbv zeta. rewrite Hnot. simpl. apply orb_false_r. }
  split; [exact Hunassign|].
  unfold Editable.can_assign_self. cbv zeta.
  rewrite Hunassign, Hnot, Hassigned.
  rewrite bool_decide_eq_true_2 by eauto. simpl.
  destruct (manages self user (Some "editing_manager")); simpl; [|done].
  apply orb_true_r.
Qed.

(** X10: self-assignment and unassignment mirror each other: a user may
    unassign themself from an editable exactly when they could assign
    themself to it were it unassigned. *)
Theorem can_unassign_self_iff_could_assign_self (self : Editable.t) (user : User) :
  Editable.can_unassign editable_type_settings
    (Editable.with_editor self (Some user)) (Some user) =
  Editable.can_assign_self editable_type_settings
    (Editable.with_editor self None) (Some user).
Proof.
  unfold Editable.can_unassign, Editable.can_assign_self, Editable.editor_is. cbv zeta.
  change (Editable.editor (Editable.with_editor self (Some user))) with (Some user).
  change (Editable.editor (Editable.with_editor self None)) with (@None User).
  change (Editable.type (Editable.with_editor self ?u)) with (Editable.type self).
  change (Editable.event (Editable.with_editor self ?u)) with (Editable.event self).
  rewrite bool_decide_eq_true_2 by done.
  rewrite (bool_decide_eq_false_2 (is_Some None)) by (intros [? ?]; discriminate).
  simpl.
  destruct (manages self (Some user) (Some "editing_manager")),
           (manages self (Some user) (editor_permission self)),
           (setting self "editing_enabled"),
           (setting self "self_assign_allowed"); done.
Qed.

(** X11: the editor permission of one editable type opens nothing on an
    editable of another type: a user whose only management permission on
    the event is that one has no general editor permissions there, cannot
    act as editor, assign themself, unassign the editor or delete. *)
Theorem editor_permission_of_other_type_gives_nothing
    (self : Editable.t) (user : option User) (other : EditableType.t) :
  other <> Editable.type self ->
  (forall permission,
     manages self user permission = true ->
     permission = EditableType.editor_permission other) ->
  Editable._has_general_editor_permissions self user = false /\
  Editable.can_perform_editor_actions editable_type_settings self user = false /\
  Editable.can_assign_self editable_type_settings self user = false /\
  Editable.can_unassign editable_type_settings self user = false /\
  Editable.can_delete self user = false.
Proof.
  intros Hother Honly.
  assert (Hmanager : manages self user (Some "editing_manager") = false).
  { apply not_true_is_false. intros Hm. apply Honly in Hm.
    by destruct (editor_permission_not_manager other) as [Hne _]. }
  assert (Hperm : manages self user (editor_permission self) = false).
  { apply not_true_is_false. intros Hp. apply Honly in Hp.
    apply editor_permission_inj in Hp. congruence. }
  assert (Hany : manages self user None = false).
  { apply not_true_is_false. intros Hp. apply Honly in Hp.
    by destruct (editor_permission_not_manager other) as [_ Hne]. }
  rewrite can_perform_editor_actions_closed_form.
  unfold Editable._has_general_editor_permissions, Editable.can_assign_self,
    Editable.can_unassign, Editable.can_delete. cbv zeta.
  rewrite Hmanager, Hperm, Hany. simpl.
  rewrite ?andb_false_r. simpl.
  repeat split; try done.
  by destruct (bool_decide _ && _).
Qed.

End PermissionConsequences.

(** ** Further runs on the sample event *)

(** Two valid revisions with files, the older created at 1: the newer one
    is returned. *)
Lemma latest_revision_with_files_newest_witness :
  let newer := Samples.revision RevisionType.replacement false 2 [7; 8] in
  let self := Samples.sample_editable [] None
                [ Samples.revision RevisionType.ready_for_review false 1 [7]; newer;
                  Samples.revision RevisionType.acceptance true 3 [9] ] in
  Editable.latest_revision_with_files self = Some newer /\
  newer ∈ Editable.revisions self /\
  EditingRevision.is_undone newer = false /\
  EditingRevision.files newer <> [] /\
  forall r', r' ∈ Editable.revisions self ->
             EditingRevision.is_undone r' = false ->
             EditingRevision.files r' <> [] ->
             EditingRevision.created_dt r' <= EditingRevision.created_dt newer.
Proof.
  intros newer self. split; [reflexivity|].
  apply (latest_revision_with_files_newest self newer). reflexivity.
Defined.

(** The latest valid revision of this log has a file. *)
Lemma latest_revision_with_files_is_latest_revision_witness :
  let newer := Samples.revision RevisionType.replacement false 2 [7; 8] in
  let self := Samples.sample_editable [] None
                [ Samples.revision RevisionType.ready_for_review false 1 [7]; newer;
                  Samples.revision RevisionType.acceptance true 3 [9] ] in
  Editable.latest_revision self = Some newer /\
  Editable.latest_revision_with_files self = Some newer.
Proof.
  intros newer self. split; [reflexivity|].
  apply (latest_revision_with_files_is_latest_revision self newer).
  - repeat constructor.
  - reflexivity.
  - discriminate.
Defined.

(** The conditions [{1,2}] and [{3}] against a revision with the file types
    3 and 4. *)
Lemma review_conditions_valid_true_iff_witness :
  let rev := Samples.revision RevisionType.ready_for_review false 1 [3; 4] in
  let self := Samples.sample_editable [[1; 2]; [3]] None [rev] in
  Editable.latest_revision_with_files self = Some rev /\
  exists b : bool,
    Editable.review_conditions_valid self = Ok b /\
    (b = true <->
     Forall (fun cond => EditingReviewCondition.type cond <> Editable.type self)
            (Event.editing_review_conditions (Editable.event self)) \/
     exists cond,
       cond ∈ Event.editing_review_conditions (Editable.event self) /\
       EditingReviewCondition.type cond = Editable.type self /\
       forall ft, ft ∈ EditingReviewCondition.file_types cond ->
                  exists f, f ∈ EditingRevision.files rev /\
                            EditingRevisionFile.file_type_id f = EditingFileType.id ft).
Proof.
  intros rev self. split; [reflexivity|].
  apply (review_conditions_valid_true_iff self rev). reflexivity.
Defined.

(** Carol is associated with the contribution and may comment. *)
Lemma can_comment_implies_can_see_timeline_witness :
  Editable.can_see_timeline (Samples.sample_editable [] None []) (Some Samples.carol) = true.
Proof.
  apply (can_comment_implies_can_see_timeline
           (Samples.sample_editable [] None []) (Some Samples.carol)).
  reflexivity.
Defined.

(** Bob, paper editor and assigned editor, with editing switched on. *)
Lemma can_perform_editor_actions_implies_editor_access_witness :
  let self := Samples.sample_editable [] (Some Samples.bob) [] in
  Editable.editor self = Some Samples.bob /\
  Editable._has_general_editor_permissions self (Some Samples.bob) = true /\
  Editable.can_use_internal_comments self (Some Samples.bob) = true /\
  Editable.can_see_restricted_revisions self (Some Samples.bob) = true /\
  Editable.can_comment self (Some Samples.bob) = true.
Proof.
  intros self.
  apply (can_perform_editor_actions_implies_editor_access
           (Samples.sample_settings ["editing_enabled"]) self (Some Samples.bob)).
  reflexivity.
Defined.

(** The paper is assigned to Bob: Alice, a manager, may take it over, Carol
    may not. *)
Lemma only_manager_takes_over_witness :
  let settings := Samples.sample_settings ["editing_enabled"; "self_assign_allowed"] in
  let self := Samples.sample_editable [] (Some Samples.bob) [] in
  (Editable.can_unassign settings self (Some Samples.alice) = true /\
   Editable.can_assign_self settings self (Some Samples.alice) = true) /\
  (Editable.can_unassign settings self (Some Samples.carol) = false /\
   Editable.can_assign_self settings self (Some Samples.carol) = false).
Proof.
  intros settings self. split.
  - apply (only_manager_takes_over settings self (Some Samples.alice) Samples.bob);
      [reflexivity|discriminate].
  - apply (only_manager_takes_over settings self (Some Samples.carol) Samples.bob);
      [reflexivity|discriminate].
Defined.

(** Bob holds [paper_editing] only; on a slides editable of the same
    contribution this opens nothing. *)
Lemma editor_permission_of_other_type_gives_nothing_witness :
  let settings := Samples.sample_settings ["editing_enabled"; "self_assign_allowed"] in
  let self := Editable.mk 31 (Samples.sample_contribution []) EditableType.slides
                (Some Samples.bob) false [] in
  Editable._has_general_editor_permissions self (Some Samples.bob) = false /\
  Editable.can_perform_editor_actions settings self (Some Samples.bob) = false /\
  Editable.can_assign_self settings self (Some Samples.bob) = false /\
  Editable.can_unassign settings self (Some Samples.bob) = false /\
  Editable.can_delete self (Some Samples.bob) = false.
Proof.
  intros settings self.
  apply (editor_permission_of_other_type_gives_nothing settings self (Some Samples.bob)
           EditableType.paper).
  - discriminate.
  - intros permission. simpl. unfold Samples.sample_can_manage.
    rewrite (bool_decide_eq_false_2 (Some Samples.bob = Some Samples.alice)) by discriminate.
    rewrite (bool_decide_eq_true_2 (Some Samples.bob = Some Samples.bob)) by reflexivity.
    simpl. intros Hp. apply bool_decide_eq_true_1 in Hp. exact Hp.
Defined.

(** * Management handlers *)

Lemma has_editable_of_type (editables' : list Editable.t) (contrib : Contribution.t)
    (editable_type : EditableType.t) :
  existsb (fun editable => bool_decide (Editable.type editable = editable_type))
          (Management.Contribution_editables editables' contrib) = false <->
  forall editable,
    editable ∈ editables' ->
    Contribution.id (Editable.contribution editable) = Contribution.id contrib ->
    Editable.type editable = editable_type ->
    Editable.is_deleted editable = true.
Proof.
  unfold Management.Contribution_editables.
  induction editables' as [|e l IH]; simpl.
  - split; [|done]. intros _ e He. by apply elem_of_nil in He.
  - assert (Hcons : forall P : Editable.t -> Prop,
              (forall x, x ∈ e :: l -> P x) <-> P e /\ (forall x, x ∈ l -> P x)).
    { intros P. split.
      - intros Hall. split; [apply Hall; left|]. intros x Hx. apply Hall. by right.
      - intros [He Hl] x Hx. apply elem_of_cons in Hx as [->|Hx]; auto. }
    rewrite Hcons, <- IH. clear Hcons IH.
    case_bool_decide as Hid; simpl.
    + destruct (Editable.is_deleted e) eqn:Hdel; simpl; [tauto|].
      rewrite orb_false_iff, bool_decide_eq_false. intuition congruence.
    + tauto.
Qed.

Lemma elem_of_contributions_without_editable (contributions : list Contribution.t)
    (editables : list Editable.t) (event : Event.t)
    (editable_type : EditableType.t) (contrib : Contribution.t) :
  contrib ∈ Management.contributions_without_editable contributions editables
              event editable_type <->
  contrib ∈ contributions /\
  Event.id (Contribution.event contrib) = Event.id event /\
  forall editable,
    editable ∈ editables ->
    Contribution.id (Editable.contribution editable) = Contribution.id contrib ->
    Editable.type editable = editable_type ->
    Editable.is_deleted editable = true.
Proof.
  unfold Management.contributions_without_editable.
  rewrite list_elem_of_In, !filter_In, <- list_elem_of_In.
  rewrite negb_true_iff, has_editable_of_type, bool_decide_eq_true. tauto.
Qed.

(** X12: a contribution is listed (and counted) as not submitted for a type
    exactly when it belongs to the event and every editable of that type
    recorded for it is deleted; a deleted editable does not count as a
    submission. *)
Theorem contributions_without_editable_spec (contributions : list Contribution.t)
    (editables : list Editable.t) (event : Event.t)
    (editable_type : EditableType.t) (contrib : Contribution.t) :
  (contrib ∈ Management.contributions_without_editable contributions editables
               event editable_type <->
   contrib ∈ contributions /\
   Event.id (Contribution.event contrib) = Event.id event /\
   forall editable,
     editable ∈ editables ->
     Contribution.id (Editable.contribution editable) = Contribution.id contrib ->
     Editable.type editable = editable_type ->
     Editable.is_deleted editable = true) /\
  (Management.RHEditablesNotSubmitted_process contributions editables event editable_type
   <= length contributions)%nat.
Proof.
  split; [apply elem_of_contributions_without_editable|].
  unfold Management.RHEditablesNotSubmitted_process,
    Management.contributions_without_editable.
  etrans; apply filter_length_le.
Qed.

(** X13: recording a live editable of the type for a contribution removes
    exactly the contributions with that id from the not-submitted list and
    leaves the rest of the list as it was; recording a deleted editable, or
    one of another type, changes nothing. *)
Theorem contributions_without_editable_after_insert (contributions : list Contribution.t)
    (editables : list Editable.t) (event : Event.t)
    (editable_type : EditableType.t) (editable : Editable.t) :
  (Editable.is_deleted editable = false ->
   Editable.type editable = editable_type ->
   Management.contributions_without_editable contributions (editable :: editables)
     event editable_type =
   List.filter
     (fun contrib =>
        negb (bool_decide (Contribution.id (Editable.contribution editable) =
                           Contribution.id contrib)))
     (Management.contributions_without_editable contributions editables
        event editable_type)) /\
  (Editable.is_deleted editable = true \/ Editable.type editable <> editable_type ->
   Management.contributions_without_editable contributions (editable :: editables)
     event editable_type =
   Management.contributions_without_editable contributions editables event editable_type).
Proof.
  unfold Management.contributions_without_editable, Management.Contribution_editables.
  split.
  - intros Hlive Hty.
    rewrite (filter_filter_andb _ _ (List.filter _ contributions)).
    apply List.filter_ext. intros contrib. simpl. rewrite Hlive.
    case_bool_decide; simpl.
    + rewrite (bool_decide_eq_true_2 _ Hty). simpl. by rewrite andb_false_r.
    + by rewrite andb_true_r.
  - intros Hor. apply List.filter_ext. intros contrib. simpl.
    destruct Hor as [Hdel|Hty].
    + by rewrite Hdel, andb_false_r.
    + destruct (_ && _); simpl; [|done].
      by rewrite bool_decide_eq_false_2.
Qed.

Section RecipientFacts.
Context {PersonLink : Type}.
Variable email : PersonLink -> string.
Variable contributions : list Contribution.t.
Variable editables : list Editable.t.
Variable person_links : Contribution.t -> list PersonLink.
Variable get_roles_from_person_link : PersonLink -> gset string.

(** X14: every recipient yielded by [get_recipients] has a non-empty
    address, holds one of the requested roles, and belongs to a contribution
    of the event without a live editable of the type; every such person
    link is yielded. *)
Theorem get_recipients_spec (event : Event.t) (editable_type : EditableType.t)
    (roles : gset string) (address : string) (contrib : Contribution.t)
    (person_link : PersonLink) (contribution_id : Z) :
  (address, (contrib, person_link), contribution_id) ∈
    Management.get_recipients email contributions editables person_links
      get_roles_from_person_link event editable_type roles <->
  address = email person_link /\
  address <> "" /\
  contribution_id = Contribution.id contrib /\
  person_link ∈ person_links contrib /\
  get_roles_from_person_link person_link ∩ roles <> ∅ /\
  contrib ∈ contributions /\
  Event.id (Contribution.event contrib) = Event.id event /\
  forall editable,
    editable ∈ editables ->
    Contribution.id (Editable.contribution editable) = Contribution.id contrib ->
    Editable.type editable = editable_type ->
    Editable.is_deleted editable = true.
Proof.
  rewrite <- elem_of_contributions_without_editable.
  unfold Management.get_recipients.
  rewrite list_elem_of_bind. split.
  - intros (c & Hrow & Hc).
    apply list_elem_of_bind in Hrow as (p & Hrow & Hp).
    destruct (negb (email p =? "")%string) eqn:Hemail; simpl in Hrow;
      [|by apply elem_of_nil in Hrow].
    case_bool_decide as Hroles; simpl in Hrow; [|by apply elem_of_nil in Hrow].
    apply list_elem_of_singleton in Hrow as [= -> -> -> ->].
    apply negb_true_iff, String.eqb_neq in Hemail. done.
  - intros (-> & Hemail & -> & Hp & Hroles & Hc).
    exists contrib. split; [|done].
    apply list_elem_of_bind. exists person_link. split; [|done].
    apply String.eqb_neq in Hemail. rewrite Hemail. simpl.
    rewrite bool_decide_eq_true_2 by done. by apply list_elem_of_singleton.
Qed.

End RecipientFacts.

Section PrincipalsFacts.
Context {Principal : Type} `{Countable Principal} {ACL : Type}.
Variable explicit_holders : ACL -> option string -> gset Principal.
Variable add_permission : Principal -> option string -> ACL -> ACL.
Variable del_permission : Principal -> option string -> ACL -> ACL.
Variable iteration : gset Principal -> list Principal.

(** What the handler relies on: [update_principal] adds or removes the one
    permission for the one principal, and a loop visits the members of the
    set. *)
Hypothesis add_permission_holders : forall p permission acl q,
  explicit_holders (add_permission p permission acl) q =
  if bool_decide (q = permission) then {[ p ]} ∪ explicit_holders acl q
  else explicit_holders acl q.
Hypothesis del_permission_holders : forall p permission acl q,
  explicit_holders (del_permission p permission acl) q =
  if bool_decide (q = permission) then explicit_holders acl q ∖ {[ p ]}
  else explicit_holders acl q.
Hypothesis iteration_visits : forall (X : gset Principal) p, p ∈ iteration X <-> p ∈ X.

Lemma foldl_add_permission_holders (permission : option string) (l : list Principal)
    (acl : ACL) (q : option string) :
  explicit_holders (foldl (fun acl p => add_permission p permission acl) acl l) q =
  if bool_decide (q = permission) then list_to_set l ∪ explicit_holders acl q
  else explicit_holders acl q.
Proof.
  revert acl. induction l as [|p l IH]; intros acl; simpl.
  - case_bool_decide; [|done]. by rewrite (left_id_L ∅ (∪)).
  - rewrite IH, add_permission_holders. case_bool_decide; [|done].
    by rewrite (assoc_L (∪)), (comm_L (∪) (list_to_set l)).
Qed.

Lemma foldl_del_permission_holders (permission : option string) (l : list Principal)
    (acl : ACL) (q : option string) :
  explicit_holders (foldl (fun acl p => del_permission p permission acl) acl l) q =
  if bool_decide (q = permission) then explicit_holders acl q ∖ list_to_set l
  else explicit_holders acl q.
Proof.
  revert acl. induction l as [|p l IH]; intros acl; simpl.
  - case_bool_decide; [|done]. by rewrite difference_empty_L.
  - rewrite IH, del_permission_holders. case_bool_decide; [|done].
    by rewrite difference_difference_l_L.
Qed.

Lemma list_to_set_iteration (X : gset Principal) : list_to_set (iteration X) = X.
Proof. apply set_eq. intros p. by rewrite elem_of_list_to_set, iteration_visits. Qed.

(** X15: after [RHEditableTypePrincipals._process_POST] the principals
    holding the editor permission of the type explicitly are exactly the
    posted ones, in whatever order the two loops visit their sets; the
    holders of every other permission, the editor permissions of the other
    editable types among them, are as before. *)
Theorem process_POST_sets_editors (editable_type : EditableType.t)
    (principals : gset Principal) (acl : ACL) :
  explicit_holders
    (Management.RHEditableTypePrincipals_process_POST explicit_holders add_permission
       del_permission iteration editable_type principals acl)
    (EditableType.editor_permission editable_type) = principals /\
  (forall q, q <> EditableType.editor_permission editable_type ->
     explicit_holders
       (Management.RHEditableTypePrincipals_process_POST explicit_holders add_permission
          del_permission iteration editable_type principals acl) q =
     explicit_holders acl q) /\
  (forall other, other <> editable_type ->
     explicit_holders
       (Management.RHEditableTypePrincipals_process_POST explicit_holders add_permission
          del_permission iteration editable_type principals acl)
       (EditableType.editor_permission other) =
     explicit_holders acl (EditableType.editor_permission other)).
Proof.
  assert (Hother : forall q, q <> EditableType.editor_permission editable_type ->
     explicit_holders
       (Management.RHEditableTypePrincipals_process_POST explicit_holders add_permission
          del_permission iteration editable_type principals acl) q =
     explicit_holders acl q).
  { intros q Hq. unfold Management.RHEditableTypePrincipals_process_POST. cbv zeta.
    rewrite foldl_del_permission_holders, foldl_add_permission_holders.
    by rewrite bool_decide_eq_false_2. }
  split; [|split; [exact Hother|]].
  - unfold Management.RHEditableTypePrincipals_process_POST. cbv zeta.
    rewrite foldl_del_permission_holders, foldl_add_permission_holders.
    rewrite bool_decide_eq_true_2 by done.
    rewrite !list_to_set_iteration.
    generalize (explicit_holders acl (EditableType.editor_permission editable_type)).
    intros old_principals.
    clear add_permission_holders del_permission_holders iteration_visits Hother.
    apply set_eq. intros p.
    rewrite elem_of_difference, elem_of_union, !elem_of_difference.
    destruct (decide (p ∈ principals)), (decide (p ∈ old_principals)); tauto.
  - intros other Hne. apply Hother. intros Heq.
    by apply editor_permission_inj in Heq.
Qed.

End PrincipalsFacts.

(** * Attachment previewers *)

Lemma find_Some_unique {A : Type} (P : A -> bool) (l : list A) (x : A) :
  (forall y z, P y = true -> P z = true -> y = z) ->
  List.find P l = Some x <-> x ∈ l /\ P x = true.
Proof.
  intros Hunique. split.
  - intros Hfind. apply find_some in Hfind as [Hin HP].
    split; [by apply list_elem_of_In|done].
  - intros [Hin HP]. induction l as [|y l IH]; [by apply elem_of_nil in Hin|].
    simpl. destruct (P y) eqn:Hy.
    + f_equal. by apply Hunique.
    + apply elem_of_cons in Hin as [->|Hin]; [congruence|by apply IH].
Qed.

Lemma find_None_iff {A : Type} (P : A -> bool) (l : list A) :
  List.find P l = None <-> forall x, x ∈ l -> P x = false.
Proof.
  split.
  - intros Hfind x Hx. apply (find_none P l Hfind). by apply list_elem_of_In.
  - intros Hall. induction l as [|y l IH]; [done|].
    simpl. rewrite (Hall y) by left. apply IH. intros x Hx. apply Hall. by right.
Qed.

Lemma base_can_preview_exclusive (p q : Preview.Previewer) (f : Preview.AttachmentFile) :
  Preview.base_can_preview p f = true -> Preview.base_can_preview q f = true -> p = q.
Proof.
  unfold Preview.base_can_preview, Preview.search.
  destruct p, q; simpl; try done;
    rewrite ?orb_true_iff, ?bool_decide_eq_true;
    intros Hp Hq;
    repeat match goal with
           | H : _ \/ _ |- _ => destruct H as [H|H]
           end;
    try (rewrite Hp in Hq; vm_compute in Hq; discriminate Hq);
    try (rewrite Hq in Hp; vm_compute in Hp; discriminate Hp).
Qed.

Lemma can_preview_base (session_user : option Preview.SessionUser) (p : Preview.Previewer)
    (f : Preview.AttachmentFile) :
  Preview.can_preview session_user p f = true -> Preview.base_can_preview p f = true.
Proof.
  destruct p; simpl; try done.
  destruct (Preview.base_can_preview Preview.PDFPreviewer f); simpl; done.
Qed.

Lemma can_preview_exclusive (session_user : option Preview.SessionUser)
    (p q : Preview.Previewer) (f : Preview.AttachmentFile) :
  Preview.can_preview session_user p f = true ->
  Preview.can_preview session_user q f = true -> p = q.
Proof.
  intros Hp Hq. apply (base_can_preview_exclusive p q f); by eapply can_preview_base.
Qed.

(** X16: at most one of the four previewers accepts a given file, so
    [get_file_previewer] returns the same previewer whatever the order (and
    repetition) in which the signal hands them over. *)
Theorem get_file_previewer_order_independent (previewers1 previewers2 : list Preview.Previewer)
    (session_user : option Preview.SessionUser) (f : Preview.AttachmentFile) :
  (forall p, p ∈ previewers1 <-> p ∈ previewers2) ->
  Preview.get_file_previewer previewers1 session_user f =
  Preview.get_file_previewer previewers2 session_user f.
Proof.
  intros Hsame. unfold Preview.get_file_previewer.
  destruct (List.find _ previewers1) as [p|] eqn:Hfind; symmetry.
  - apply find_Some_unique in Hfind as [Hin Hp];
      [|intros y z; apply can_preview_exclusive].
    apply find_Some_unique; [intros y z; apply can_preview_exclusive|].
    split; [by apply Hsame|done].
  - apply find_None_iff. intros x Hx.
    apply (proj1 (find_None_iff _ _) Hfind). by apply Hsame.
Qed.

(** X17: the PDF previewer is opt-in: it is returned exactly when it is
    among the previewers, the content type is [application/pdf] (a final
    newline allowed) and a user is logged in whose setting
    [use_previewer_pdf] is true; an anonymous request never gets it. *)
Theorem pdf_previewer_is_opt_in (previewers : list Preview.Previewer)
    (session_user : option Preview.SessionUser) (f : Preview.AttachmentFile) :
  Preview.get_file_previewer previewers session_user f = Some Preview.PDFPreviewer <->
  Preview.PDFPreviewer ∈ previewers /\
  (Preview.content_type f = "application/pdf" \/
   Preview.content_type f = ("application/pdf" +:+ Preview.newline)%string) /\
  exists user, session_user = Some user /\
               Preview.settings user !! "use_previewer_pdf" = Some true.
Proof.
  unfold Preview.get_file_previewer.
  rewrite find_Some_unique by (intros y z; apply can_preview_exclusive).
  apply and_iff_compat_l. simpl.
  unfold Preview.base_can_preview, Preview.search. simpl.
  split.
  - destruct session_user as [user|]; [|by rewrite orb_true_r].
    rewrite (bool_decide_eq_true_2 (is_Some (Some user))) by eauto. rewrite orb_false_r.
    destruct (bool_decide _ || bool_decide _) eqn:Hct; simpl; [|done].
    apply orb_true_iff in Hct. rewrite !bool_decide_eq_true in Hct.
    intros Hsetting. split; [done|]. exists user. split; [done|].
    by destruct (Preview.settings user !! "use_previewer_pdf") as [[]|].
  - intros (Hct & user & -> & Hsetting).
    rewrite (bool_decide_eq_true_2 (is_Some (Some user))) by eauto.
    rewrite orb_false_r, Hsetting.
    destruct Hct as [-> | ->]; reflexivity.
Qed.

(** * Theme settings *)

(** [settings.update(dict.fromkeys(keys, value))], read at one key. *)
Lemma lookup_update_fromkeys {V : Type} (value : V) (keys : gset string)
    (settings : gmap string V) (key : string) :
  (gset_to_gmap value keys ∪ settings) !! key =
  if bool_decide (key ∈ keys) then Some value else settings !! key.
Proof.
  rewrite lookup_union.
  destruct (gset_to_gmap value keys !! key) as [y|] eqn:Hlookup.
  - apply lookup_gset_to_gmap_Some in Hlookup as [Hin ->].
    rewrite bool_decide_eq_true_2 by done. by destruct (settings !! key).
  - apply lookup_gset_to_gmap_None in Hlookup.
    rewrite bool_decide_eq_false_2 by done. by destruct (settings !! key).
Qed.

Section ThemeFacts.
Context {V : Type}.
Variable themes : gmap string (option (gmap string V)).

(** X18: for a known theme [get_theme_global_settings] returns a mapping,
    and raises [KeyError] for an unknown one.  When the theme is not the
    event's, the mapping is the theme's own settings.  When it is, the key
    [show_notes] takes the event's value of [inline_minutes] if that is set,
    the four keys [hide_duration], [hide_session_block_time],
    [hide_end_time] and [number_contributions] take the event's value of
    [numbered_contributions] if that is set, and every other key keeps the
    theme's own value. *)
Theorem get_theme_global_settings_lookup (event : Layout.LayoutEvent) (theme_name : string) :
  (themes !! theme_name = None ->
   Layout.get_theme_global_settings themes event theme_name = Layout.KeyError theme_name) /\
  (forall definition, themes !! theme_name = Some definition ->
   exists settings,
     Layout.get_theme_global_settings themes event theme_name = Layout.Return settings /\
     forall key : string,
       settings !! key =
       if bool_decide (Layout.theme event <> theme_name) then default ∅ definition !! key
       else
         let override :=
           if bool_decide (key = "show_notes")
           then Layout.timetable_theme_settings event !! "inline_minutes"
           else if bool_decide (key ∈ ({[ "hide_duration"; "hide_session_block_time";
                                           "hide_end_time"; "number_contributions" ]}
                                       : gset string))
           then Layout.timetable_theme_settings event !! "numbered_contributions"
           else None in
         match override with
         | Some value => Some value
         | None => default ∅ definition !! key
         end).
Proof.
  unfold Layout.get_theme_global_settings. split; [by intros ->|].
  intros definition ->. cbv zeta.
  case_bool_decide as Htheme; [by eexists|].
  eexists. split; [reflexivity|]. intros key. simpl.
  assert (Hnotes : bool_decide (key ∈ ({[ "show_notes" ]} : gset string)) =
                   bool_decide (key = "show_notes")).
  { apply bool_decide_ext, elem_of_singleton. }
  assert (Hdisjoint : key = "show_notes" ->
            bool_decide (key ∈ ({[ "hide_duration"; "hide_session_block_time";
                                    "hide_end_time"; "number_contributions" ]}
                                : gset string)) = false).
  { intros ->. by vm_compute. }
  destruct (Layout.timetable_theme_settings event !! "inline_minutes") as [notes|];
    destruct (Layout.timetable_theme_settings event !! "numbered_contributions")
      as [numbered|];
    rewrite ?lookup_update_fromkeys, ?Hnotes;
    destruct (bool_decide (key = "show_notes")) eqn:Hkey;
    try (apply bool_decide_eq_true_1 in Hkey; rewrite (Hdisjoint Hkey));
    try done;
    by case_bool_decide.
Qed.

End ThemeFacts.

(** * Runs of the handlers on sample data *)

(** Contribution 22 has only a deleted paper, contribution 21 a live one. *)
Lemma contributions_without_editable_spec_witness :
  let contributions := [MoreSamples.contribution_a; MoreSamples.contribution_b] in
  Management.contributions_without_editable contributions MoreSamples.sample_editables
    (Samples.sample_event []) EditableType.paper = [MoreSamples.contribution_b] /\
  MoreSamples.contribution_b ∈
    Management.contributions_without_editable contributions MoreSamples.sample_editables
      (Samples.sample_event []) EditableType.paper.
Proof.
  intros contributions. split; [reflexivity|].
  apply (proj1 (contributions_without_editable_spec contributions
                  MoreSamples.sample_editables (Samples.sample_event [])
                  EditableType.paper MoreSamples.contribution_b)).
  split; [right; left|]. split; [reflexivity|].
  intros editable Hin.
  apply elem_of_cons in Hin as [->|Hin]; [discriminate|].
  apply elem_of_cons in Hin as [->|Hin]; [reflexivity|].
  by apply elem_of_nil in Hin.
Defined.

(** Of the two person links of contribution 22 the one with an address is
    a recipient. *)
Lemma get_recipients_spec_witness :
  let contributions := [MoreSamples.contribution_a; MoreSamples.contribution_b] in
  ("dora@example.org", (MoreSamples.contribution_b, "dora@example.org"), 22) ∈
    Management.get_recipients (fun person_link : string => person_link) contributions
      MoreSamples.sample_editables MoreSamples.sample_person_links MoreSamples.sample_roles
      (Samples.sample_event []) EditableType.paper {[ "author" ]}.
Proof.
  intros contributions.
  apply (proj2 (get_recipients_spec (fun person_link : string => person_link) contributions
                  MoreSamples.sample_editables MoreSamples.sample_person_links
                  MoreSamples.sample_roles (Samples.sample_event []) EditableType.paper
                  {[ "author" ]} "dora@example.org" MoreSamples.contribution_b
                  "dora@example.org" 22)).
  split; [reflexivity|]. split; [discriminate|]. split; [reflexivity|].
  split; [left|]. split.
  { apply (bool_decide_unpack _). vm_compute. exact I. }
  split; [right; left|]. split; [reflexivity|].
  intros editable Hin.
  apply elem_of_cons in Hin as [->|Hin]; [discriminate|].
  apply elem_of_cons in Hin as [->|Hin]; [reflexivity|].
  by apply elem_of_nil in Hin.
Defined.

(** A live paper recorded for contribution 22 takes it off the list. *)
Lemma contributions_without_editable_after_insert_witness :
  let contributions := [MoreSamples.contribution_a; MoreSamples.contribution_b] in
  let editable := Editable.mk 33 MoreSamples.contribution_b EditableType.paper None false [] in
  Management.contributions_without_editable contributions
    (editable :: MoreSamples.sample_editables) (Samples.sample_event []) EditableType.paper =
  [].
Proof.
  intros contributions editable.
  rewrite (proj1 (contributions_without_editable_after_insert contributions
                    MoreSamples.sample_editables (Samples.sample_event [])
                    EditableType.paper editable) eq_refl eq_refl).
  reflexivity.
Defined.

(** Posting the principals 2 and 5 as paper editors: 1 loses the
    permission, 5 gains it, and the slides editors stay. *)
Lemma process_POST_sets_editors_witness :
  let acl :=
    Management.RHEditableTypePrincipals_process_POST MoreSamples.sample_holders
      MoreSamples.sample_add MoreSamples.sample_del elements EditableType.paper
      {[ 2; 5 ]} MoreSamples.sample_acl in
  MoreSamples.sample_holders acl (Some "paper_editing") = {[ 2; 5 ]} /\
  MoreSamples.sample_holders acl (Some "slides_editing") =
    MoreSamples.sample_holders MoreSamples.sample_acl (Some "slides_editing").
Proof.
  intros acl.
  destruct (process_POST_sets_editors MoreSamples.sample_holders MoreSamples.sample_add
              MoreSamples.sample_del elements
              (fun p permission acl q => eq_refl)
              (fun p permission acl q => eq_refl)
              (fun X p => elem_of_elements X p)
              EditableType.paper {[ 2; 5 ]} MoreSamples.sample_acl)
    as (Hpaper & _ & Hother).
  split; [exact Hpaper|].
  apply (Hother EditableType.slides). discriminate.
Defined.

(** The four previewers in the order of the source and in reverse. *)
Lemma get_file_previewer_order_independent_witness :
  let f := Preview.mkAttachmentFile "text/plain" in
  Preview.get_file_previewer Preview._get_file_previewers None f = Some Preview.TextPreviewer /\
  Preview.get_file_previewer Preview._get_file_previewers None f =
  Preview.get_file_previewer (rev Preview._get_file_previewers) None f.
Proof.
  intros f. split; [reflexivity|].
  apply (get_file_previewer_order_independent
           Preview._get_file_previewers (rev Preview._get_file_previewers) None f).
  intros p. split; intros _; destruct p; simpl; repeat constructor.
Defined.

(** A user who switched the PDF previewer on. *)
Lemma pdf_previewer_is_opt_in_witness :
  let user := Preview.mkSessionUser {[ "use_previewer_pdf" := true ]} in
  let f := Preview.mkAttachmentFile "application/pdf" in
  Preview.get_file_previewer Preview._get_file_previewers (Some user) f =
    Some Preview.PDFPreviewer /\
  Preview.get_file_previewer Preview._get_file_previewers None f = None.
Proof.
  intros user f. split; [|reflexivity].
  apply (proj2 (pdf_previewer_is_opt_in Preview._get_file_previewers (Some user) f)).
  split; [right; left|]. split; [by left|].
  exists user. split; reflexivity.
Defined.

(** The event uses the theme [standard] and switched inline minutes on. *)
Lemma get_theme_global_settings_lookup_witness :
  let event := Layout.mkLayoutEvent "standard" ({[ "inline_minutes" := true ]} : gmap string bool) in
  exists settings,
    Layout.get_theme_global_settings MoreSamples.sample_themes event "standard" =
      Layout.Return settings /\
    settings !! "show_notes" = Some true /\
    settings !! "hide_dates" = Some true /\
    settings !! "hide_duration" = Some false.
Proof.
  intros event.
  destruct (proj2 (get_theme_global_settings_lookup MoreSamples.sample_themes event
                     "standard") _ eq_refl) as (settings & Hreturn & Hlookup).
  exists settings. split; [exact Hreturn|].
  split; [|split]; rewrite Hlookup; reflexivity.
Defined.
